(** * samlkeygen: the SAML-to-credentials pipeline of [entry_points.py]

    A shallow embedding of [samlkeygen/entry_points.py]: the Python string
    operations the code relies on, the element tree walked by
    [extract_roles], the [RawConfigParser] table behind the credentials
    file, the remote calls as oracles of an environment record, and the
    functions of the module as computations in a state-and-error monad
    over an explicit world. *)

From Stdlib Require Import ZArith Lia Strings.Ascii Strings.String Numbers.DecimalString.
From stdpp Require Import gmap strings list fin_maps sorting.

Local Open Scope Z_scope.
Local Open Scope string_scope.
Local Open Scope list_scope.

(** ** Python strings *)

Module PyStr.

(** [s.split(sep)] for a one-character separator: always at least one
    piece, empty pieces are kept. *)
Fixpoint split (sep : ascii) (s : string) : list string :=
  match s with
  | EmptyString => [EmptyString]
  | String c s' =>
      if Ascii.eqb c sep then EmptyString :: split sep s'
      else match split sep s' with
           | [] => [String c EmptyString]
           | p :: ps => String c p :: ps
           end
  end.

(** [s.startswith(p)] *)
Definition startswith (p s : string) : bool := String.prefix p s.

(** [sub in s] *)
Fixpoint contains (sub s : string) : bool :=
  String.prefix sub s ||
  match s with
  | EmptyString => false
  | String _ s' => contains sub s'
  end.

Fixpoint drop (n : nat) (s : string) : string :=
  match n, s with
  | O, _ => s
  | S n', String _ s' => drop n' s'
  | S _, EmptyString => EmptyString
  end.

(** [s.replace(old, new)] for a non-empty [old]: occurrences are found
    from the left and do not overlap.  [skip] counts the characters of
    an occurrence that are still to be dropped. *)
Fixpoint replace_from (old new : string) (skip : nat) (s : string) : string :=
  match s with
  | EmptyString => EmptyString
  | String c s' =>
      match skip with
      | S k => replace_from old new k s'
      | O =>
          if String.prefix old s
          then new +:+ replace_from old new (Nat.pred (String.length old)) s'
          else String c (replace_from old new O s')
      end
  end.

(** With an empty [old] Python puts [new] before every character and at
    the end. *)
Fixpoint intersperse (new s : string) : string :=
  match s with
  | EmptyString => new
  | String c s' => new +:+ String c (intersperse new s')
  end.

Definition replace (old new s : string) : string :=
  match old with
  | EmptyString => intersperse new s
  | String _ _ => replace_from old new O s
  end.

(** [str(n)] for an integer. *)
Definition str_of_int (n : Z) : string := NilZero.string_of_int (Z.to_int n).

(** [int(s)] on ASCII text (Python 3): surrounding white space (tab,
    line feed, vertical tab, form feed, carriage return, space), an
    optional sign, decimal digits, single underscores between digits.
    [None] stands for [ValueError]. *)
Definition is_space (c : ascii) : bool :=
  let n := nat_of_ascii c in
  ((9 <=? n)%nat && (n <=? 13)%nat) || (n =? 32)%nat.

Definition digit_of (c : ascii) : option Z :=
  let n := nat_of_ascii c in
  if ((48 <=? n)%nat && (n <=? 57)%nat)%bool then Some (Z.of_nat (n - 48)) else None.

Fixpoint lstrip (s : string) : string :=
  match s with
  | String c s' => if is_space c then lstrip s' else s
  | EmptyString => EmptyString
  end.

Fixpoint rstrip (s : string) : string :=
  match s with
  | EmptyString => EmptyString
  | String c s' =>
      match rstrip s' with
      | EmptyString => if is_space c then EmptyString else String c EmptyString
      | t => String c t
      end
  end.

Definition strip (s : string) : string := rstrip (lstrip s).

Fixpoint int_digits (acc : Z) (after_digit : bool) (s : string) : option Z :=
  match s with
  | EmptyString => if after_digit then Some acc else None
  | String c s' =>
      match digit_of c with
      | Some d => int_digits (10 * acc + d) true s'
      | None =>
          if (Ascii.eqb c "_" && after_digit)%bool then int_digits acc false s' else None
      end
  end.

Definition int (s : string) : option Z :=
  match strip s with
  | String "-" s' => Z.opp <$> int_digits 0 false s'
  | String "+" s' => int_digits 0 false s'
  | s' => int_digits 0 false s'
  end.

(** [c not in s] *)
Fixpoint lacks (c : ascii) (s : string) : bool :=
  match s with
  | EmptyString => true
  | String c' s' => negb (Ascii.eqb c' c) && lacks c s'
  end.

(** [sep.join(pieces)] *)
Fixpoint join (sep : string) (pieces : list string) : string :=
  match pieces with
  | [] => EmptyString
  | [p] => p
  | p :: rest => p +:+ sep +:+ join sep rest
  end.

(** Truth value of a string or [None] in a condition. *)
Definition truthy (o : option string) : bool :=
  match o with
  | Some (String _ _) => true
  | _ => false
  end.

End PyStr.

(** ** Outcomes, effects and the world *)

(** Exceptions the modelled code can raise and does not catch. *)
Inductive exn :=
| TypeError | AttributeError | IndexError | ValueError
| NoSectionError | DuplicateSectionError
| ReError            (* re.error from re.compile *)
| DecodeError        (* base64 or XML parsing of the assertion *)
| RemoteError (text : string).  (* an exception of a remote call other than ClientError *)

(** [Died msg] is [die(msg)]: the message goes to stderr and the process
    exits with status 1.  [Pending] is a loop still running when the
    fuel given to the model is used up. *)
Inductive result (A : Type) :=
| Ok (a : A)
| Died (msg : string)
| Raised (e : exn)
| Pending.
Arguments Ok {A} a.
Arguments Died {A} msg.
Arguments Raised {A} e.
Arguments Pending {A}.

(** The token payload of [assume_role_with_saml]: [token['Credentials'][...]]
    and [token['AssumedRoleUser']['Arn']]. *)
Record Token := {
  AccessKeyId : string;
  SecretAccessKey : string;
  SessionToken : string;
  Expiration : string;
  AssumedRoleUserArn : string
}.

(** A failed remote call: [ClientError] is the one exception class the
    code catches. *)
Inductive remote_error :=
| ClientError (text : string)
| OtherError (text : string).

Inductive sts_response :=
| StsToken (t : Token)
| StsFailed (e : remote_error).

Inductive alias_response :=
| AliasList (aliases : list string)   (* response['AccountAliases'] *)
| AliasFailed (e : remote_error).

(** Parsed XML, as [xml.etree.ElementTree] presents it. *)
Inductive element :=
| Element (tag : string) (attrib : list (string * string)) (text : option string)
          (children : list element).

(** The table of a [RawConfigParser]: the DEFAULT section and the named
    sections.  A credentials file is represented by the table that
    [read] builds from it, and [write] leaves a file holding the table
    of the parser. *)
Record config := {
  defaults : gmap string string;
  sections : gmap string (gmap string string)
}.

Definition empty_config : config := {| defaults := ∅; sections := ∅ |}.

Definition binding : Type := string * string.   (* (principal_arn, role_arn) *)

Inductive event :=
| EvStderr (text : string)
| EvStdout (text : string)
| EvPrompt (prompt : string)
| EvHttpGet (url user : string)
| EvAssumeRole (role_arn principal_arn : string)
| EvListAliases (access_key : string)
| EvLock (path : string)
| EvUnlock (path : string)
| EvWriteFile (path : string)
| EvSpawn (principal_arn role_arn : string)
| EvJoin
| EvSleep (seconds : Z).

(** Shared with every process: the effects so far (newest first), the
    clock in whole seconds, the number of token exchanges made, and the
    credentials files, each held as the parser table that reading it
    gives.
    Local to a process: [get_account_name.map], [load_credentials.config]
    and [load_credentials.filename]. *)
Record world := {
  trace : list event;
  now : Z;
  sts_calls : nat;
  files : gmap string config;
  name_map : gmap string string;
  lc_config : option config;
  lc_filename : option string
}.

Definition world0 : world :=
  {| trace := []; now := 0; sts_calls := 0; files := ∅;
     name_map := ∅; lc_config := None; lc_filename := None |}.

(** What lies outside the module: the [re] engine, the process
    environment, the terminal, the identity provider, the decoder of the
    assertion, the STS and IAM endpoints, the calendar, the time each
    effect takes and the time that passes while the clock is read
    ([tick], from the number of effects so far and the reading). *)
Record Env := {
  regex : Type;
  re_compile : string -> option regex;
  re_search : regex -> string -> bool;
  environ : string -> option string;
  expanduser : string -> string;
  prompt_input : string -> string;
  prompt_getpass : string -> string;
  adfs_inputs : string -> string -> string -> list (option string * option string);
  fromstring_b64decode : string -> option element;
  assume_role_with_saml : nat -> string -> string -> string -> string -> sts_response;
  list_account_aliases : Token -> alias_response;
  utcnow_strftime : Z -> string;
  latency : nat -> event -> Z;
  tick : nat -> Z -> Z
}.

Definition M (A : Type) : Type := world -> result A * world.

Definition ret {A} (a : A) : M A := fun w => (Ok a, w).

Definition bind {A B} (m : M A) (k : A -> M B) : M B :=
  fun w =>
    match m w with
    | (Ok a, w') => k a w'
    | (Died msg, w') => (Died msg, w')
    | (Raised e, w') => (Raised e, w')
    | (Pending, w') => (Pending, w')
    end.

Definition raise {A} (e : exn) : M A := fun w => (Raised e, w).

Notation "'let*' x ':=' m 'in' k" := (bind m (fun x => k))
  (at level 10, x pattern, m at level 100, k at level 200).
Notation "m1 ;; m2" := (bind m1 (fun _ => m2))
  (at level 100, m2 at level 200, right associativity).

Definition get_world : M world := fun w => (Ok w, w).

Definition set_name_map (m : gmap string string) : M unit :=
  fun w => (Ok tt, {| trace := trace w; now := now w; sts_calls := sts_calls w;
                      files := files w; name_map := m; lc_config := lc_config w;
                      lc_filename := lc_filename w |}).

Definition set_lc_config (c : option config) : M unit :=
  fun w => (Ok tt, {| trace := trace w; now := now w; sts_calls := sts_calls w;
                      files := files w; name_map := name_map w; lc_config := c;
                      lc_filename := lc_filename w |}).

Definition set_file (path : string) (c : config) : M unit :=
  fun w => (Ok tt, {| trace := trace w; now := now w; sts_calls := sts_calls w;
                      files := <[path := c]> (files w); name_map := name_map w;
                      lc_config := lc_config w; lc_filename := lc_filename w |}).

Definition count_sts_call : M nat :=
  fun w => (Ok (sts_calls w),
            {| trace := trace w; now := now w; sts_calls := S (sts_calls w);
               files := files w; name_map := name_map w; lc_config := lc_config w;
               lc_filename := lc_filename w |}).

(** The process-local part of [parent] put back over the shared part of
    [w]: what the parent sees once a child process has run. *)
Definition restore_local (parent w : world) : world :=
  {| trace := trace w; now := now w; sts_calls := sts_calls w; files := files w;
     name_map := name_map parent; lc_config := lc_config parent;
     lc_filename := lc_filename parent |}.

Definition newline : string := String (ascii_of_nat 10) EmptyString.

(** ** The module *)

Section EntryPoints.

Context (E : Env).

Definition emit (ev : event) : M unit :=
  fun w => (Ok tt, {| trace := ev :: trace w;
                      now := now w + latency E (length (trace w)) ev;
                      sts_calls := sts_calls w; files := files w;
                      name_map := name_map w; lc_config := lc_config w;
                      lc_filename := lc_filename w |}).

(** [time.time()]: the clock moves on while it is read. *)
Definition time_time : M Z :=
  fun w => (Ok (now w), {| trace := trace w;
                           now := now w + tick E (length (trace w)) (now w);
                           sts_calls := sts_calls w; files := files w;
                           name_map := name_map w; lc_config := lc_config w;
                           lc_filename := lc_filename w |}).

(** [time.sleep(seconds)] *)

Definition time_sleep (seconds : Z) : M unit :=
  fun w => (Ok tt, {| trace := EvSleep seconds :: trace w;
                      now := now w + seconds + latency E (length (trace w)) (EvSleep seconds);
                      sts_calls := sts_calls w; files := files w;
                      name_map := name_map w; lc_config := lc_config w;
                      lc_filename := lc_filename w |}).

Definition warn (message : string) : M unit :=
  let message := if PyStr.contains newline message then message else message +:+ newline in
  emit (EvStderr ("samlkeygen: " +:+ message)).

Definition die {A} (message : string) : M A :=
  fun w => (Died message, snd (warn message w)).

(** [print(text, end=end_)] *)
Definition print (text end_ : string) : M unit := emit (EvStdout (text +:+ end_)).

Definition lift {A} (r : result A) : M A := fun w => (r, w).

(** *** Module constants *)

(** [os.path.join(a, b)] (POSIX) for a relative [b]. *)
Fixpoint endswith_sep (s : string) : bool :=
  match s with
  | EmptyString => false
  | String c EmptyString => Ascii.eqb c "/"
  | String _ s' => endswith_sep s'
  end.

Definition path_join (a b : string) : string :=
  if PyStr.startswith "/" b then b
  else match a with
       | EmptyString => b
       | _ => if endswith_sep a then a +:+ b else a +:+ "/" +:+ b
       end.

Definition AWS_DIR : string :=
  match environ E "AWS_DIR" with
  | Some d => d
  | None => expanduser E "~/.aws"
  end.

Definition CREDS_FILE : string := path_join AWS_DIR "credentials".

Definition LOCK_FILE : string := CREDS_FILE +:+ ".lck".

(** *** extract_roles *)

Definition AWS_ATTRIBUTE_ROLE : string := "https://aws.amazon.com/SAML/Attributes/Role".
Definition ATTRIBUTE_VALUE_URN : string :=
  "{urn:oasis:names:tc:SAML:2.0:assertion}AttributeValue".
Definition ATTRIBUTE_URN : string := "{urn:oasis:names:tc:SAML:2.0:assertion}Attribute".

Definition tag_of (e : element) : string := match e with Element t _ _ _ => t end.
Definition text_of (e : element) : option string := match e with Element _ _ t _ => t end.
Definition children_of (e : element) : list element := match e with Element _ _ _ c => c end.

(** [element.get(key)] *)
Fixpoint assoc (key : string) (l : list (string * string)) : option string :=
  match l with
  | [] => None
  | (k, v) :: l' => if String.eqb k key then Some v else assoc key l'
  end.

Definition get (e : element) (key : string) : option string :=
  match e with Element _ a _ _ => assoc key a end.

(** [element.iter(tag)]: the element itself and everything below it, in
    document order, kept when the tag is [t]. *)
Fixpoint iter (t : string) (e : element) : list element :=
  match e with
  | Element tg _ _ ch =>
      (if String.eqb tg t then [e] else []) ++ concat (map (iter t) ch)
  end.

(** [role_tuple] applied to the unpacked pieces: a named tuple of two fields. *)
Definition role_tuple (parts : list string) : result binding :=
  match parts with
  | [principal_arn; role_arn] => Ok (principal_arn, role_arn)
  | _ => Raised TypeError
  end.

Definition value_binding (value : element) : result binding :=
  match text_of value with
  | None => Raised AttributeError
  | Some t => role_tuple (PyStr.split "," t)
  end.

(** A list comprehension whose element expression can raise. *)
Fixpoint comprehension {A B} (f : A -> result B) (l : list A) : result (list B) :=
  match l with
  | [] => Ok []
  | x :: l' =>
      match f x with
      | Ok y =>
          match comprehension f l' with
          | Ok ys => Ok (y :: ys)
          | Died m => Died m
          | Raised e => Raised e
          | Pending => Pending
          end
      | Died m => Died m
      | Raised e => Raised e
      | Pending => Pending
      end
  end.

Definition is_role_attribute (attr : element) : bool :=
  match get attr "Name" with
  | Some n => String.eqb n AWS_ATTRIBUTE_ROLE
  | None => false
  end.

Definition role_attributes (root : element) : list element :=
  filter (fun a => is_role_attribute a = true) (iter ATTRIBUTE_URN root).

Definition extract_roles_of (root : element) : result (list binding) :=
  match comprehension
          (fun attr => comprehension value_binding (iter ATTRIBUTE_VALUE_URN attr))
          (role_attributes root) with
  | Ok sublists => Ok (concat sublists)
  | Died m => Died m
  | Raised e => Raised e
  | Pending => Pending
  end.

Definition extract_roles (saml_response : string) : M (list binding) :=
  match fromstring_b64decode E saml_response with
  | None => raise DecodeError
  | Some root => lift (extract_roles_of root)
  end.

(** *** RawConfigParser *)

Definition lower_ascii (c : ascii) : ascii :=
  let n := nat_of_ascii c in
  if ((65 <=? n)%nat && (n <=? 90)%nat)%bool then ascii_of_nat (n + 32) else c.

(** [optionxform]: option names are lower-cased. *)
Fixpoint optionxform (s : string) : string :=
  match s with
  | EmptyString => EmptyString
  | String c s' => String (lower_ascii c) (optionxform s')
  end.

Definition default_section : string := "DEFAULT".

Definition has_section (c : config) (section : string) : bool :=
  match sections c !! section with
  | Some _ => true
  | None => false
  end.

Definition add_section (c : config) (section : string) : result config :=
  if String.eqb section default_section then Raised ValueError
  else if has_section c section then Raised DuplicateSectionError
  else Ok {| defaults := defaults c; sections := <[section := ∅]> (sections c) |}.

(** [set(section, option, value)]: an empty section name and DEFAULT
    both address the defaults. *)
Definition set (c : config) (section option value : string) : result config :=
  if (negb (PyStr.truthy (Some section)) || String.eqb section default_section)%bool
  then Ok {| defaults := <[optionxform option := value]> (defaults c);
             sections := sections c |}
  else match sections c !! section with
       | Some d =>
           Ok {| defaults := defaults c;
                 sections := <[section := <[optionxform option := value]> d]> (sections c) |}
       | None => Raised NoSectionError
       end.

(** [config.read(filename)] on a fresh parser: a missing file is
    skipped.  The text of a file and its parsing are not modelled: a
    file is the table it holds. *)
Definition read (w : world) (filename : string) : config :=
  match files w !! filename with
  | Some c => c
  | None => empty_config
  end.

(** [load_credentials]: the parser object is kept in
    [load_credentials.config]; [load_credentials.filename] is never
    assigned, so it stays [None] and differs from every file name.  A
    parser object is always true in a condition. *)
Definition load_credentials (filename : string) (force_refresh : bool) : M config :=
  let* w := get_world in
  let stale :=
    (force_refresh
     || match lc_config w with None => true | Some _ => false end
     || match lc_filename w with
        | Some f => negb (String.eqb filename f)
        | None => true
        end)%bool in
  (if stale then set_lc_config (Some (read w filename)) else ret tt);;
  let* w' := get_world in
  match lc_config w' with
  | Some c => ret c
  | None => ret empty_config
  end.

(** The parser returned by [load_credentials] is the object held in
    [load_credentials.config]: a change to it shows there too. *)
Definition mutate_credentials (r : result config) : M config :=
  let* c := lift r in
  set_lc_config (Some c);;
  ret c.

(** [@interprocess_locked(path)]: the lock is held around the call and
    released however the call ends. *)
Definition interprocess_locked {A} (path : string) (body : M A) : M A :=
  fun w =>
    let w1 := snd (emit (EvLock path) w) in
    let rw := body w1 in
    (fst rw, snd (emit (EvUnlock path) (snd rw))).

(** [with open(filename, 'w+') as credsfile: credentials.write(credsfile)],
    as one step that stores the table: [EvWriteFile] marks the attempt
    to open the file for writing; an attempt that fails, or that is cut
    short after the file has been truncated, is not modelled. *)
Definition write_file (filename : string) (c : config) : M unit :=
  emit (EvWriteFile filename);;
  set_file filename c.

Definition update_creds_file (filename profile : string) (token : Token) : M unit :=
  interprocess_locked LOCK_FILE
    (let* credentials := load_credentials filename true in
     let* credentials :=
       (if has_section credentials profile then ret credentials
        else mutate_credentials (add_section credentials profile)) in
     let* credentials :=
       mutate_credentials (set credentials profile "aws_access_key_id" (AccessKeyId token)) in
     let* credentials :=
       mutate_credentials (set credentials profile "aws_secret_access_key" (SecretAccessKey token)) in
     let* credentials :=
       mutate_credentials (set credentials profile "aws_session_token" (SessionToken token)) in
     let* credentials :=
       mutate_credentials (set credentials profile "aws_security_token" (SessionToken token)) in
     let* t := time_time in
     let* credentials :=
       mutate_credentials (set credentials profile "last_updated" (utcnow_strftime E t)) in
     write_file filename credentials).

(** *** Token exchange and account names *)

Definition get_sts_token (role_arn principal_arn assertion region : string)
  : M (option Token) :=
  let* n := count_sts_call in
  emit (EvAssumeRole role_arn principal_arn);;
  match assume_role_with_saml E n role_arn principal_arn assertion region with
  | StsToken token => ret (Some token)
  | StsFailed (ClientError e) =>
      warn ("Failed to get creds for " +:+ role_arn +:+ ": " +:+ e);;
      ret None
  | StsFailed (OtherError e) => raise (RemoteError e)
  end.

(** [l[i]] *)
Definition index {A} (l : list A) (i : nat) : result A :=
  match l !! i with
  | Some x => Ok x
  | None => Raised IndexError
  end.

Definition get_account_alias (token : Token) : M string :=
  emit (EvListAliases (AccessKeyId token));;
  match list_account_aliases E token with
  | AliasList aliases => lift (index aliases 0)
  | AliasFailed (ClientError e) =>
      warn ("Failed to get account alias for " +:+ AssumedRoleUserArn token +:+ ": " +:+ e);;
      lift (index (PyStr.split ":" (AssumedRoleUserArn token)) 5)
  | AliasFailed (OtherError e) => raise (RemoteError e)
  end.

Definition get_account_name (account_arn saml_response role_arn region : string)
  : M string :=
  let* w := get_world in
  match name_map w !! account_arn with
  | Some _ => ret tt
  | None =>
      let* token := get_sts_token role_arn account_arn saml_response region in
      match token with
      | Some token =>
          let* alias := get_account_alias token in
          let* w' := get_world in
          set_name_map (<[account_arn := alias]> (name_map w'))
      | None => ret tt
      end
  end;;
  let* w := get_world in
  match name_map w !! account_arn with
  | Some name => ret name
  | None => ret account_arn
  end.

Definition get_role_name (role_arn : string) : result string :=
  match index (PyStr.split ":" role_arn) 5 with
  | Ok resource => Ok (PyStr.replace "role/" "" resource)
  | Died m => Died m
  | Raised e => Raised e
  | Pending => Pending
  end.

(** *** The identity provider *)

Definition saml_creds : Type := string * string * string * option string.

(** [xs[-1]], with [None] for the [IndexError] the code catches. *)
Definition last_value (values : list (option string)) : option string :=
  match last values with
  | Some v => v
  | None => None
  end.

Definition ntlm_authenticate (url domain username : string) (password : option string)
  (batch : bool) : M (saml_creds * string) :=
  if negb (PyStr.truthy (Some url))
  then die "Pass ADFS URL via --url or set ADFS_URL in environment."
  else if negb (PyStr.truthy (Some domain))
  then die "Pass ADFS authentication domain via --domain or set ADFS_DOMAIN in environment."
  else
    let* username :=
      (if PyStr.truthy (Some username) then ret username
       else
         let* typed :=
           (if batch then ret username
            else emit (EvPrompt "Username:");; ret (prompt_input E "Username:")) in
         if PyStr.truthy (Some typed) then ret typed
         else die "Unable to determine ADFS username. Specify via --username option or run interactively.") in
    let domain_username := domain +:+ "\" +:+ username in
    let* password :=
      (if PyStr.truthy password then ret password
       else
         let* typed :=
           (if batch then ret password
            else
              let prompt := domain_username +:+ "'s password: " in
              emit (EvPrompt prompt);; ret (Some (prompt_getpass E prompt))) in
         if PyStr.truthy typed then ret typed
         else die ("No password given for " +:+ username
                   +:+ ". Respond to prompt or specify via --password option.")) in
    emit (EvHttpGet url domain_username);;
    let inputs :=
      adfs_inputs E url domain_username (match password with Some p => p | None => "" end) in
    let values :=
      map snd (filter (fun i => fst i = Some "SAMLResponse") inputs) in
    let saml_response := last_value values in
    match saml_response with
    | Some (String c r) => ret ((url, domain, username, password), String c r)
    | _ => die "Error getting SAML Response. If not on LAN, please VPN in."
    end.

(** *** One worker *)

Definition authenticate_account_role (filename profile_format principal_arn : string)
  (role_arn : option string) (creds : saml_creds) (region : string) : M unit :=
  match role_arn with
  | None => die "Unable to get credentials for null role ARN"
  | Some role_arn =>
      let* (_, saml_response) :=
        (match creds with
         | (url, domain, username, password) =>
             ntlm_authenticate url domain username password true
         end) in
      let* token := get_sts_token role_arn principal_arn saml_response region in
      match token with
      | None =>
          die ("Unable to get token for (" +:+ principal_arn +:+ ", " +:+ role_arn +:+ ")")
      | Some token =>
          let* account_name := get_account_name principal_arn saml_response role_arn region in
          let* role_name := lift (get_role_name role_arn) in
          let profile :=
            PyStr.replace "%r" role_name (PyStr.replace "%a" account_name profile_format) in
          print ("Writing credentials for profile " +:+ profile) newline;;
          update_creds_file filename profile token
      end
  end.

(** *** authenticate: selection of the bindings *)

(** The first loop over [roles]: the principal of the first binding the
    pattern finds. *)
Definition first_principal (r : regex E) (roles : list binding) : option string :=
  fst <$> find (fun b => re_search E r (fst b)) roles.

(** The second loop: account names are fetched one binding at a time
    until the pattern finds one. *)
Fixpoint first_alias (r : regex E) (saml_response region : string) (roles : list binding)
  : M (option string) :=
  match roles with
  | [] => ret None
  | (principal_arn, role_arn) :: rest =>
      let* account_name := get_account_name principal_arn saml_response role_arn region in
      if re_search E r account_name then ret (Some principal_arn)
      else first_alias r saml_response region rest
  end.

Definition compile (pattern : string) : M (regex E) :=
  match re_compile E pattern with
  | Some r => ret r
  | None => raise ReError
  end.

(** The pattern the account is searched with: a selector that [int]
    accepts and that is not zero becomes the text of an ARN prefix. *)
Definition account_pattern (account : string) : string :=
  match PyStr.int account with
  | Some account_id =>
      if Z.eqb account_id 0 then account
      else "arn:aws:iam::" +:+ PyStr.str_of_int account_id
  | None => account
  end.

Definition select_account (account : option string) (saml_response region : string)
  (roles : list binding) : M (option string * option string) :=
  if PyStr.truthy account then
    let account := account_pattern (match account with Some a => a | None => "" end) in
    let* r := compile account in
    let account_arn := first_principal r roles in
    let* account_arn :=
      (if negb (PyStr.truthy account_arn) then
         let* found := first_alias r saml_response region roles in
         ret (match found with Some p => Some p | None => account_arn end)
       else ret account_arn) in
    ret (Some account, account_arn)
  else ret (account, None).

Definition select_role (role : option string) (account_arn : option string)
  (roles : list binding) : M (list binding) :=
  match role with
  | Some (String c r as role) =>
      let* roles :=
        (if PyStr.startswith "arn:" role
         then ret (filter (fun b => snd b = role) roles)
         else
           let* rx := compile role in
           ret (filter (fun b => re_search E rx (snd b) = true) roles)) in
      match roles with
      | [] =>
          let msg := "Role " +:+ role +:+ " not found" in
          let msg :=
            match account_arn with
            | Some (String _ _ as a) => msg +:+ " in account " +:+ a
            | _ => msg
            end in
          die msg
      | _ => ret roles
      end
  | _ => ret roles
  end.

(** Lines 58-114 of [authenticate]: the guards, the negotiation, and
    the bindings to fetch tokens for, as the set handed to the loop. *)
Definition authenticate_select (url region : string) (batch all_accounts : bool)
  (account : option string) (domain : string) (role : option string) (username : string)
  (password : option string) : M (saml_creds * list binding) :=
  if negb (all_accounts || PyStr.truthy account)
  then die "Need --account or --all-accounts"
  else if (all_accounts && (PyStr.truthy account || PyStr.truthy role))%bool
  then die "Specify --account/--role or --all-accounts, not both."
  else
    let* (creds, saml_response) := ntlm_authenticate url domain username password batch in
    let* roles := extract_roles saml_response in
    let* (account, account_arn) := select_account account saml_response region roles in
    let roles :=
      match account_arn with
      | Some (String _ _ as a) => filter (fun b => fst b = a) roles
      | _ => roles
      end in
    match account_arn, roles with
    | Some (String _ _), [] =>
        die ("Account " +:+ (match account with Some a => a | None => "None" end)
             +:+ " not found.")
    | _, _ =>
        let* roles := select_role role account_arn roles in
        ret (creds, remove_dups roles)
    end.

(** *** authenticate: the refresh loop *)

(** [Process(target=authenticate_account_role, ...).start()]: the worker
    runs on its own copy of the process-local state; how it ends stays
    in the child.  Workers are run here one after the other, in the
    order they are started. *)
Definition start_process (filename profile : string) (creds : saml_creds)
  (region : string) (b : binding) : M unit :=
  fun w =>
    let w1 := snd (emit (EvSpawn (fst b) (snd b)) w) in
    let w2 :=
      snd (authenticate_account_role filename profile (fst b) (Some (snd b)) creds region w1) in
    (Ok tt, restore_local w w2).

Fixpoint for_each {A} (f : A -> M unit) (l : list A) : M unit :=
  match l with
  | [] => ret tt
  | x :: l' => f x;; for_each f l'
  end.

Definition carriage_return : string := String (ascii_of_nat 13) EmptyString.

(** The inner [while time.time() < next_update] loop. *)
Fixpoint wait_refresh (fuel : nat) (next_update : Z) : M unit :=
  match fuel with
  | O => lift Pending
  | S fuel' =>
      let* t := time_time in
      if Z.ltb t next_update then
        let* t' := time_time in
        let counter := (next_update - t') / 60 in
        print (PyStr.str_of_int counter +:+ " minutes till credential refresh" +:+ carriage_return) "";;
        time_sleep 60;;
        wait_refresh fuel' next_update
      else ret tt
  end.

(** One turn of the outer loop.  The values of the local variables
    [started] and [next_update] are returned for inspection.  The
    argument of the diagnostic [trace('Token retrieval took ...')] is
    evaluated whether or not it is shown, and reads the clock. *)
Definition refresh_pass (fuel : nat) (filename profile : string) (creds : saml_creds)
  (region : string) (roles : list binding) (auto_update : bool) : M (Z * option Z) :=
  let* started := time_time in
  for_each (start_process filename profile creds region) roles;;
  for_each (fun _ => emit EvJoin) roles;;
  if auto_update then
    let* _ := time_time in
    let* t := time_time in
    let next_update := t + 59 * 60 in
    wait_refresh fuel next_update;;
    ret (started, Some next_update)
  else ret (started, None).

(** [while auto_update or first]: with [auto_update] the loop has no
    exit, and the model stops with [Pending] after [fuel] passes. *)
Fixpoint refresh_loop (fuel : nat) (filename profile : string) (creds : saml_creds)
  (region : string) (roles : list binding) (auto_update : bool) : M unit :=
  match fuel with
  | O => lift Pending
  | S fuel' =>
      refresh_pass (S fuel') filename profile creds region roles auto_update;;
      if auto_update
      then refresh_loop fuel' filename profile creds region roles auto_update
      else ret tt
  end.

(** Diagnostics of [trace] (stderr, only with [--verbose]) are left out. *)
Definition authenticate (fuel : nat) (url region : string) (batch all_accounts : bool)
  (account : option string) (profile domain : string) (role : option string)
  (username : string) (password : option string) (filename : string)
  (auto_update : bool) : M unit :=
  let* (creds, roles) :=
    authenticate_select url region batch all_accounts account domain role username password in
  refresh_loop fuel filename profile creds region roles auto_update.

End EntryPoints.

Arguments regex : clear implicits.

(** ** Patterns without metacharacters *)

Module PyRe.

(** The special characters of [re] patterns. *)
Definition is_meta (c : ascii) : bool :=
  PyStr.contains (String c EmptyString) ".^$*+?{}[]\|()".

Fixpoint literal (p : string) : bool :=
  match p with
  | EmptyString => true
  | String c p' => negb (is_meta c) && literal p'
  end.

(** What is assumed of the engine of an environment where a claim
    depends on it: a pattern without metacharacters compiles, and
    searching with it is searching for its text. *)
Definition literal_engine (E : Env) : Prop :=
  forall p, literal p = true ->
            exists r, re_compile E p = Some r
                      /\ forall text, re_search E r text = PyStr.contains p text.

End PyRe.

(** ** What the specification says, for comparison *)

Module Spec.

(** The text after the last occurrence of [sub] in [s]. *)
Fixpoint after_last (sub s : string) : option string :=
  match s with
  | EmptyString => None
  | String _ s' =>
      match after_last sub s' with
      | Some r => Some r
      | None =>
          if String.prefix sub s then Some (PyStr.drop (String.length sub) s) else None
      end
  end.

(** The role short name of the specification: "the trailing path
    segment of the role identifier after its last role/ component". *)
Definition role_short_name (role_arn : string) : option string :=
  after_last "role/" role_arn.

(** A value split on its first comma. *)
Fixpoint split_first_comma (s : string) : option (string * string) :=
  match s with
  | EmptyString => None
  | String c s' =>
      if Ascii.eqb c "," then Some (EmptyString, s')
      else match split_first_comma s' with
           | Some (a, b) => Some (String c a, b)
           | None => None
           end
  end.

(** The account number of a principal identifier: the fifth field of
    the ARN. *)
Definition account_number (principal_arn : string) : option Z :=
  match PyStr.split ":" principal_arn !! 4%nat with
  | Some field => PyStr.int field
  | None => None
  end.

(** The four token fields and the time stamp laid over the keys [d]
    of a section; a freshly written profile has these five keys and no
    other. *)
Definition profile_fields (token : Token) (stamp : string) (d : gmap string string)
  : gmap string string :=
  <["last_updated" := stamp]>
    (<["aws_security_token" := SessionToken token]>
       (<["aws_session_token" := SessionToken token]>
          (<["aws_secret_access_key" := SecretAccessKey token]>
             (<["aws_access_key_id" := AccessKeyId token]> d)))).

Definition profile_section (token : Token) (stamp : string) : gmap string string :=
  profile_fields token stamp ∅.

(** The lock file of the specification: the sibling [<storePath>.lck]. *)
Definition lock_file (store_path : string) : string := store_path +:+ ".lck".

(** The deadline of the specification: 59 minutes after the pass began. *)
Definition next_update (started : Z) : Z := started + 59 * 60.

End Spec.

(** ** A concrete environment *)

Module Scenario.

(** An [re] engine for patterns without metacharacters: there a search
    is the search for the text itself.  It is used at such patterns
    only; other patterns are outside it. *)
Definition literal_compile (p : string) : option string :=
  if PyRe.literal p then Some p else None.

Definition literal_search (p text : string) : bool := PyStr.contains p text.

Definition P1 : string := "arn:aws:iam::123456789012:saml-provider/X".
Definition R1 : string := "arn:aws:iam::123456789012:role/Admin".
Definition R2 : string := "arn:aws:iam::123456789012:role/ReadOnly".

Definition token_for (role_arn : string) : Token :=
  {| AccessKeyId := "AKIAEXAMPLE";
     SecretAccessKey := "secret";
     SessionToken := "session";
     Expiration := "2026-01-01T01:00:00Z";
     AssumedRoleUserArn := "arn:aws:sts::123456789012:assumed-role/R/S" |}.

Definition attribute_value (t : string) : element :=
  Element "{urn:oasis:names:tc:SAML:2.0:assertion}AttributeValue" [] (Some t) [].

Definition role_attribute (values : list string) : element :=
  Element "{urn:oasis:names:tc:SAML:2.0:assertion}Attribute"
    [("Name", "https://aws.amazon.com/SAML/Attributes/Role")] None
    (map attribute_value values).

(** A response whose assertion carries the given role values. *)
Definition response (values : list string) : element :=
  Element "{urn:oasis:names:tc:SAML:2.0:protocol}Response" [] None
    [Element "{urn:oasis:names:tc:SAML:2.0:assertion}Assertion" [] None
       [Element "{urn:oasis:names:tc:SAML:2.0:assertion}AttributeStatement" [] None
          [Element "{urn:oasis:names:tc:SAML:2.0:assertion}Attribute"
             [("Name", "https://aws.amazon.com/SAML/Attributes/RoleSessionName")] None
             [attribute_value "user"];
           role_attribute values]]].

Definition env (values : list string)
  (sts : nat -> string -> sts_response) (aliases : alias_response)
  (lat : nat -> event -> Z) : Env :=
  {| regex := string;
     re_compile := literal_compile;
     re_search := literal_search;
     environ := fun _ => None;
     expanduser := fun _ => "/home/user/.aws";
     prompt_input := fun _ => "";
     prompt_getpass := fun _ => "";
     adfs_inputs := fun _ _ _ => [(Some "SAMLResponse", Some "PHNhbWw+")];
     fromstring_b64decode := fun _ => Some (response values);
     assume_role_with_saml := fun n role_arn _ _ _ => sts n role_arn;
     list_account_aliases := fun _ => aliases;
     utcnow_strftime := fun _ => "2026-01-01T00:00:00Z";
     latency := lat;
     tick := fun _ _ => 0 |}.

(** The same environment with a clock that moves one second at every
    reading. *)
Definition ticking (E : Env) : Env :=
  {| regex := regex E;
     re_compile := re_compile E;
     re_search := re_search E;
     environ := environ E;
     expanduser := expanduser E;
     prompt_input := prompt_input E;
     prompt_getpass := prompt_getpass E;
     adfs_inputs := adfs_inputs E;
     fromstring_b64decode := fromstring_b64decode E;
     assume_role_with_saml := assume_role_with_saml E;
     list_account_aliases := list_account_aliases E;
     utcnow_strftime := utcnow_strftime E;
     latency := latency E;
     tick := fun _ _ => 1 |}.

Definition sts_ok (n : nat) (role_arn : string) : sts_response := StsToken (token_for role_arn).

Definition no_latency (n : nat) (ev : event) : Z := 0.

(** One account, one role, alias [prod], every exchange succeeds. *)
Definition env1 : Env := env [P1 +:+ "," +:+ R1] sts_ok (AliasList ["prod"]) no_latency.

(** An account whose number begins with a zero. *)
Definition P0 : string := "arn:aws:iam::012345678901:saml-provider/X".
Definition R0 : string := "arn:aws:iam::012345678901:role/Admin".

(** Two accounts, one role in each. *)
Definition env2 : Env :=
  env [P0 +:+ "," +:+ R0; P1 +:+ "," +:+ R1] sts_ok (AliasList ["prod"]) no_latency.

(** A store with the profiles [dev] and [test]. *)
Definition store12 : config :=
  {| defaults := ∅;
     sections :=
       <["test" := <["aws_access_key_id" := "AKIATEST"]> ∅]>
         (<["dev" := <["region" := "eu-west-1"]> (<["aws_access_key_id" := "AKIADEV"]> ∅)]> ∅) |}.

Definition world12 : world :=
  {| trace := []; now := 0; sts_calls := 0; files := <["/tmp/creds" := store12]> ∅;
     name_map := ∅; lc_config := None; lc_filename := None |}.

(** The negotiation of a worker takes 100 seconds. *)
Definition slow_http (n : nat) (ev : event) : Z :=
  match ev with
  | EvHttpGet _ _ => 100
  | _ => 0
  end.

Definition env_slow : Env := env [P1 +:+ "," +:+ R1] sts_ok (AliasList ["prod"]) slow_http.

Definition creds1 : saml_creds := ("https://adfs.example/ls", "CORP", "user", Some "pw").

(** The first exchange succeeds, the later ones are refused. *)
Definition sts_once (n : nat) (role_arn : string) : sts_response :=
  match n with
  | O => StsToken (token_for role_arn)
  | S _ => StsFailed (ClientError "ExpiredToken")
  end.

Definition env_once : Env := env [P1 +:+ "," +:+ R1] sts_once (AliasList ["prod"]) no_latency.

Definition refused (n : nat) (role_arn : string) : sts_response :=
  StsFailed (ClientError "AccessDenied").

Definition env_refused : Env := env [P1 +:+ "," +:+ R1] refused (AliasList ["prod"]) no_latency.

Definition run_select (E : Env) (all_accounts : bool) (account role : option string) :=
  authenticate_select E "https://adfs.example/ls" "us-east-1" true all_accounts account
    "CORP" role "user" (Some "pw") world0.

Definition run_authenticate (E : Env) (all_accounts : bool) (account role : option string)
  (filename : string) :=
  authenticate E 1 "https://adfs.example/ls" "us-east-1" true all_accounts account "%a:%r"
    "CORP" role "user" (Some "pw") filename false world0.

End Scenario.

(** ** The profile commands *)

Section Profiles.

Context (E : Env).

(** A profile as [load_profiles] returns it: the section name and
    [dict(config.items(name))]. *)
Definition profile : Type := string * gmap string string.

(** [config.items(section)] of a section of the table, as a dict: the
    keys of the section over those of DEFAULT. *)
Definition items (c : config) (d : gmap string string) : gmap string string :=
  d ∪ defaults c.

(** The sections are taken in the order of the table, which is not the
    order of the file; every caller in the module sorts the result. *)
Definition load_profiles (filename pattern : string) : M (list profile) :=
  let* config := load_credentials filename false in
  let* r := compile E pattern in
  ret ((fun s => (fst s, items config (snd s)))
         <$> filter (fun s => re_search E r (fst s) = true) (map_to_list (sections config))).

(** The order of [sorted] on profiles of distinct names. *)
Definition name_le (a b : profile) : Prop := String.leb (fst a) (fst b) = true.

Definition name_le_dec (a b : profile) : Decision (name_le a b) :=
  decide (String.leb (fst a) (fst b) = true).

Definition sorted (profiles : list profile) : list profile :=
  @merge_sort profile name_le name_le_dec profiles.

Definition list_profiles (pattern filename : string) : M unit :=
  let* profiles := load_profiles filename pattern in
  for_each (fun p => print E (fst p) newline) (sorted profiles).

Definition tab : string := String (ascii_of_nat 9) EmptyString.

Definition select_profile (pattern filename : string) : M unit :=
  let* loaded := load_profiles filename pattern in
  let profiles := fst <$> sorted loaded in
  match profiles with
  | [] => die E "No matching profiles found."
  | [name] => print E name newline
  | _ =>
      die E ("Pattern is not unique. It matches these profiles: " +:+ newline +:+ tab
             +:+ PyStr.join (newline +:+ tab) profiles +:+ newline)
  end.

End Profiles.

(** A section of the table whose name the pattern finds. *)
Definition matching (E : Env) (r : regex E) (c : config) (name : string) : Prop :=
  is_Some (sections c !! name) /\ re_search E r name = true.

(** The order of [sorted] on names. *)
Definition string_le (a b : string) : Prop := String.leb a b = true.

(** ** Observations kept by a computation *)

(** [m] leaves the observation [obs] of the world as it was, however
    it ends. *)
Definition stable {X A} (obs : world -> X) (m : M A) : Prop :=
  forall w, obs (snd (m w)) = obs w.

Definition is_prompt (ev : event) : bool :=
  match ev with EvPrompt _ => true | _ => false end.

Definition is_http (ev : event) : bool :=
  match ev with EvHttpGet _ _ => true | _ => false end.

Definition is_spawn (ev : event) : bool :=
  match ev with EvSpawn _ _ => true | _ => false end.

Definition is_sleep (ev : event) : bool :=
  match ev with EvSleep _ => true | _ => false end.

Definition is_remote (ev : event) : bool :=
  match ev with
  | EvHttpGet _ _ | EvAssumeRole _ _ | EvListAliases _ => true
  | _ => false
  end.

Definition is_stderr (ev : event) : bool :=
  match ev with EvStderr _ => true | _ => false end.

(** What touches the store: the lock and the write. *)
Definition is_store_event (ev : event) : bool :=
  match ev with
  | EvLock _ | EvUnlock _ | EvWriteFile _ => true
  | _ => false
  end.

(** What a worker in the background must not do: ask the terminal,
    start a process, sleep. *)
Definition is_foreground (ev : event) : bool :=
  match ev with
  | EvPrompt _ | EvSpawn _ _ | EvSleep _ => true
  | _ => false
  end.

(** What makes a process wait for a person or for the clock. *)
Definition is_blocking (ev : event) : bool :=
  match ev with
  | EvPrompt _ | EvSleep _ => true
  | _ => false
  end.

(** The events of a class in a world, newest first. *)
Definition events (p : event -> bool) (w : world) : list event := List.filter p (trace w).

(** The trace and the files together. *)
Definition store_view (w : world) : list event * gmap string config := (trace w, files w).

(** [m] either ends normally having written [filename] once, or ends
    otherwise with the trace and the files as they were. *)
Definition writes_once (filename : string) (m : M unit) : Prop :=
  forall w,
    (fst (m w) = Ok tt
     /\ trace (snd (m w)) = EvWriteFile filename :: trace w
     /\ exists c, files (snd (m w)) = <[filename := c]> (files w))
    \/ (fst (m w) <> Ok tt /\ store_view (snd (m w)) = store_view w).

(** [m] either ends normally or leaves the files as they were. *)
Definition all_or_nothing (m : M unit) : Prop :=
  forall w, fst (m w) = Ok tt \/ files (snd (m w)) = files w.

(** An attempt to write a file. *)
Definition is_write (ev : event) : bool :=
  match ev with EvWriteFile _ => true | _ => false end.

(** The attempts to write and the files together. *)
Definition write_view (w : world) : list event * gmap string config :=
  (events is_write w, files w).

(** [m] either attempts no write and leaves every file as it was, or
    does not die, attempts one write, of [filename], and leaves every
    other file as it was. *)
Definition writes_unless_dead (filename : string) (m : M unit) : Prop :=
  forall w,
    write_view (snd (m w)) = write_view w
    \/ ((forall msg, fst (m w) <> Died msg)
        /\ events is_write (snd (m w)) = EvWriteFile filename :: events is_write w
        /\ forall other, other <> filename -> files (snd (m w)) !! other = files w !! other).


(** ** Observations on traces *)

Definition is_lock_event (ev : event) : bool :=
  match ev with
  | EvLock _ | EvUnlock _ => true
  | _ => false
  end.

(** The lock events of a world, newest first. *)
Definition locks (w : world) : list event := List.filter is_lock_event (trace w).

(** A computation that neither takes nor releases a lock. *)
Definition keeps_locks {A} (m : M A) : Prop := forall w, locks (snd (m w)) = locks w.

(** The attribute values [extract_roles] visits, in document order. *)
Definition role_values (root : element) : list element :=
  concat (map (iter ATTRIBUTE_VALUE_URN) (role_attributes root)).

Fixpoint count_char (c : ascii) (s : string) : nat :=
  match s with
  | EmptyString => O
  | String c' s' => (if Ascii.eqb c' c then 1 else 0) + count_char c s'
  end.

(** A value whose text holds exactly one comma. *)
Definition one_comma (value : element) : bool :=
  match text_of value with
  | Some t => Nat.eqb (count_char "," t) 1
  | None => false
  end.

(** [b] is the text of [value] split at its first comma. *)
Definition binding_of (value : element) (b : binding) : Prop :=
  exists t, text_of value = Some t /\ Spec.split_first_comma t = Some b.

(** The report of the inner loop of the refresh. *)
Definition report (minutes : Z) : event :=
  EvStdout ((PyStr.str_of_int minutes +:+ " minutes till credential refresh"
             +:+ carriage_return) +:+ "").

(** One turn of the inner loop on the trace, oldest first: the report
    of the whole minutes between the reading and the deadline, then a
    nap of 60 seconds. *)
Definition turn_events (next_update reading : Z) : list event :=
  [report ((next_update - reading) / 60); EvSleep 60].

(** The readings of the turns of one wait, oldest first: for each turn
    the reading that was found before the deadline and the later
    reading that was reported; a turn begins no earlier than [from], and
    the next one no earlier than 60 seconds after the reported reading. *)
Fixpoint spaced (next_update from : Z) (readings : list (Z * Z)) : Prop :=
  match readings with
  | [] => True
  | (checked, reported) :: rest =>
      from <= checked /\ checked < next_update /\ checked <= reported
      /\ spaced next_update (reported + 60) rest
  end.

(** No effect and no reading of the clock takes a negative time. *)
Definition forward_clock (E : Env) : Prop :=
  (forall n ev, 0 <= latency E n ev) /\ (forall n t, 0 <= tick E n t).

(** A computation that never turns the clock back. *)
Definition advances {A} (m : M A) : Prop := forall w, now w <= now (snd (m w)).



(** The message of the guard of line 98. *)
Definition account_not_found (account : string) : string :=
  "Account " +:+ account +:+ " not found.".

(** A computation that, when it dies, dies with a message in [P]. *)
Definition dies_only {A} (P : string -> Prop) (m : M A) : Prop :=
  forall w msg, fst (m w) = Died msg -> P msg.

Definition other_message (msg : string) : Prop :=
  forall account, msg <> account_not_found account.

(** ** Checks of the string model *)

Example split_arn :
  PyStr.split ":" "arn:aws:iam::123456789012:role/Admin"
  = ["arn"; "aws"; "iam"; ""; "123456789012"; "role/Admin"].
Proof. reflexivity. Qed.

Example replace_twice : PyStr.replace "role/" "" "role/service-role/Admin" = "service-Admin".
Proof. reflexivity. Qed.

Example replace_overlap : PyStr.replace "aa" "b" "aaaaa" = "bba".
Proof. reflexivity. Qed.

Example replace_empty : PyStr.replace "" "-" "abc" = "-a-b-c-".
Proof. reflexivity. Qed.

Example int_examples :
  PyStr.int " 0012 " = Some 12 /\ PyStr.int "-5" = Some (-5) /\ PyStr.int "1_000" = Some 1000
  /\ PyStr.int "1__0" = None /\ PyStr.int "" = None /\ PyStr.int "12a" = None
  /\ PyStr.int "_1" = None /\ PyStr.int "1_" = None /\ PyStr.int "0" = Some 0.
Proof. repeat split; reflexivity. Qed.

(** Only tab, line feed, vertical tab, form feed, carriage return and
    space are stripped: the separators 28 to 31 are not. *)
Example int_white_space :
  PyStr.int (String (ascii_of_nat 9) ("12" +:+ String (ascii_of_nat 10) "")) = Some 12
  /\ PyStr.int (String (ascii_of_nat 11) (String (ascii_of_nat 12) "12")) = Some 12
  /\ PyStr.int (String (ascii_of_nat 28) "999999999999") = None
  /\ PyStr.int (String (ascii_of_nat 31) "12") = None
  /\ PyStr.int "+5" = Some 5 /\ PyStr.int "+ 5" = None /\ PyStr.int "1 2" = None.
Proof. repeat split; reflexivity. Qed.

Example str_examples :
  PyStr.str_of_int 0 = "0" /\ PyStr.str_of_int 12345 = "12345" /\ PyStr.str_of_int (-7) = "-7".
Proof. repeat split; reflexivity. Qed.

(** ** get_role_name *)

Example get_role_name_plain :
  get_role_name "arn:aws:iam::123456789012:role/Admin" = Ok "Admin".
Proof. reflexivity. Qed.

(** On the example of the interface description the code and the
    specification agree. *)
Example get_role_name_path :
  get_role_name "arn:aws:iam::123456789012:role/path/Admin" = Ok "path/Admin"
  /\ Spec.role_short_name "arn:aws:iam::123456789012:role/path/Admin" = Some "path/Admin".
Proof. split; reflexivity. Qed.

(** C8: the role short name is the text after the last [role/] of the
    role identifier, also when [role/] occurs more than once.  The code
    breaks this: for a role under the path [service-role/] every
    [role/] is deleted and the text between the occurrences is kept, so
    [get_role_name] yields [service-Admin] where the text after the last
    [role/] is [Admin]. *)
Theorem get_role_name_service_role :
  get_role_name "arn:aws:iam::123456789012:role/service-role/Admin" = Ok "service-Admin"
  /\ Spec.role_short_name "arn:aws:iam::123456789012:role/service-role/Admin" = Some "Admin".
Proof. split; reflexivity. Qed.

(** ** get_account_alias *)

Lemma get_account_alias_no_alias (E : Env) (token : Token) (w : world) :
  list_account_aliases E token = AliasList [] ->
  fst (get_account_alias E token w) = Raised IndexError.
Proof.
  intros H. unfold get_account_alias, bind, emit, lift. rewrite H. reflexivity.
Qed.

Lemma get_account_alias_client_error (E : Env) (token : Token) (w : world) (e : string) :
  list_account_aliases E token = AliasFailed (ClientError e) ->
  fst (get_account_alias E token w)
  = index (PyStr.split ":" (AssumedRoleUserArn token)) 5.
Proof.
  intros H. unfold get_account_alias, bind, emit, warn, emit, lift. rewrite H. reflexivity.
Qed.

(** C2: alias resolution never raises and falls back to the
    account-number segment of the assumed-role ARN.  The code breaks
    both halves: when the listing fails with a client error it returns
    field 5 of the ARN, which is the resource [assumed-role/R/S] and not
    the account number [123456789012] (field 4); and a listing that
    succeeds with no alias raises [IndexError]. *)
Theorem get_account_alias_fallback_field :
  let token := Scenario.token_for Scenario.R1 in
  AssumedRoleUserArn token = "arn:aws:sts::123456789012:assumed-role/R/S"
  /\ fst (get_account_alias
            (Scenario.env [] Scenario.sts_ok (AliasFailed (ClientError "AccessDenied"))
               Scenario.no_latency) token world0)
     = Ok "assumed-role/R/S"
  /\ fst (get_account_alias
            (Scenario.env [] Scenario.sts_ok (AliasList []) Scenario.no_latency) token world0)
     = Raised IndexError.
Proof. repeat split; reflexivity. Qed.

(** ** The guards of authenticate *)

Lemma trace_warn (E : Env) (message : string) (w : world) :
  trace (snd (warn E message w))
  = EvStderr ("samlkeygen: "
              +:+ (if PyStr.contains newline message then message else message +:+ newline))
    :: trace w.
Proof. reflexivity. Qed.

(** C7, as stated, fails: with neither selector and without the
    all-accounts flag the run ends at the first guard. *)
Lemma no_selector_needs_all_accounts :
  Scenario.run_select Scenario.env1 false None None
  = (Died "Need --account or --all-accounts",
     snd (warn Scenario.env1 "Need --account or --all-accounts" world0)).
Proof. reflexivity. Qed.

(** C7, amended: without an account selector the all-accounts flag is
    required, and the run dies with nothing but the message on stderr
    when it is missing; the flag together with an account or a role
    selector dies the same way; the flag alone selects every binding of
    the assertion. *)
Theorem authenticate_select_modes (E : Env) (url region : string) (batch : bool)
  (account : option string) (domain : string) (role : option string) (username : string)
  (password : option string) (w : world) :
  (PyStr.truthy account = false ->
   authenticate_select E url region batch false account domain role username password w
   = (Died "Need --account or --all-accounts",
      snd (warn E "Need --account or --all-accounts" w)))
  /\ ((PyStr.truthy account || PyStr.truthy role)%bool = true ->
      authenticate_select E url region batch true account domain role username password w
      = (Died "Specify --account/--role or --all-accounts, not both.",
         snd (warn E "Specify --account/--role or --all-accounts, not both." w)))
  /\ (PyStr.truthy account = false -> PyStr.truthy role = false ->
      forall creds saml_response w1 roles w2,
        ntlm_authenticate E url domain username password batch w
        = (Ok (creds, saml_response), w1) ->
        extract_roles E saml_response w1 = (Ok roles, w2) ->
        authenticate_select E url region batch true account domain role username password w
        = (Ok (creds, remove_dups roles), w2)
        /\ forall b, b ∈ remove_dups roles <-> b ∈ roles).
Proof.
  split; [|split].
  - intros Ha. unfold authenticate_select. rewrite Ha. reflexivity.
  - intros Hsel. unfold authenticate_select. rewrite Hsel.
    rewrite orb_true_l. reflexivity.
  - intros Ha Hr creds saml_response w1 roles w2 Hn Hx. split.
    + unfold authenticate_select. rewrite Ha, Hr. cbn [orb andb negb].
      unfold bind at 1. rewrite Hn.
      unfold bind at 1. rewrite Hx.
      unfold select_account. rewrite Ha.
      unfold bind, ret.
      destruct roles as [|b0 roles'];
        destruct role as [[|c r]|]; try discriminate Hr; reflexivity.
    + intros b. apply elem_of_remove_dups.
Qed.

Lemma authenticate_select_modes_witness :
  Scenario.run_select Scenario.env1 false None (Some "Admin")
  = (Died "Need --account or --all-accounts",
     snd (warn Scenario.env1 "Need --account or --all-accounts" world0))
  /\ fst (Scenario.run_select Scenario.env1 true (Some "123456789012") None)
     = Died "Specify --account/--role or --all-accounts, not both."
  /\ fst (Scenario.run_select Scenario.env1 true None None)
     = Ok ("https://adfs.example/ls", "CORP", "user", Some "pw", [(Scenario.P1, Scenario.R1)]).
Proof.
  pose proof (authenticate_select_modes Scenario.env1 "https://adfs.example/ls" "us-east-1"
                true None "CORP" (Some "Admin") "user" (Some "pw") world0) as (H1 & _ & _).
  pose proof (authenticate_select_modes Scenario.env1 "https://adfs.example/ls" "us-east-1"
                true (Some "123456789012") "CORP" None "user" (Some "pw") world0) as (_ & H2 & _).
  pose proof (authenticate_select_modes Scenario.env1 "https://adfs.example/ls" "us-east-1"
                true None "CORP" None "user" (Some "pw") world0) as (_ & _ & H3).
  split; [exact (H1 eq_refl)|split].
  - unfold Scenario.run_select. rewrite (H2 eq_refl). reflexivity.
  - unfold Scenario.run_select.
    destruct (H3 eq_refl eq_refl _ _ _ _ _ eq_refl eq_refl) as [H _].
    rewrite H. reflexivity.
Defined.

(** ** The lock of update_creds_file *)

Lemma keeps_locks_ret {A} (a : A) : keeps_locks (ret a).
Proof. intros w. reflexivity. Qed.

Lemma keeps_locks_lift {A} (r : result A) : keeps_locks (lift r).
Proof. intros w. reflexivity. Qed.

Lemma keeps_locks_bind {A B} (m : M A) (k : A -> M B) :
  keeps_locks m -> (forall a, keeps_locks (k a)) -> keeps_locks (bind m k).
Proof.
  intros Hm Hk w. unfold bind. specialize (Hm w).
  destruct (m w) as [[a| | |] w']; simpl in *; try assumption.
  rewrite Hk. assumption.
Qed.

Lemma keeps_locks_emit (E : Env) (ev : event) :
  is_lock_event ev = false -> keeps_locks (emit E ev).
Proof. intros H w. unfold locks. simpl. rewrite H. reflexivity. Qed.

Lemma keeps_locks_mutate (r : result config) : keeps_locks (mutate_credentials r).
Proof.
  unfold mutate_credentials. apply keeps_locks_bind; [apply keeps_locks_lift|].
  intros c. apply keeps_locks_bind; [intros w; reflexivity|].
  intros _. apply keeps_locks_ret.
Qed.

Lemma keeps_locks_load (filename : string) (force : bool) :
  keeps_locks (load_credentials filename force).
Proof.
  unfold load_credentials. apply keeps_locks_bind; [intros w; reflexivity|].
  intros w0. apply keeps_locks_bind.
  - destruct (_ || _ || _)%bool; intros w; reflexivity.
  - intros _. apply keeps_locks_bind; [intros w; reflexivity|].
    intros w1. destruct (lc_config w1); apply keeps_locks_ret.
Qed.

Lemma locks_interprocess_locked (E : Env) {A} (path : string) (body : M A) (w : world) :
  keeps_locks body ->
  locks (snd (interprocess_locked E path body w)) = EvUnlock path :: EvLock path :: locks w.
Proof.
  intros Hb. unfold interprocess_locked.
  set (w1 := snd (emit E (EvLock path) w)).
  assert (H1 : locks w1 = EvLock path :: locks w) by reflexivity.
  specialize (Hb w1). rewrite H1 in Hb.
  unfold locks in *. cbn [snd emit trace List.filter is_lock_event].
  rewrite Hb. reflexivity.
Qed.

(** C3, as stated, fails: the store written is [/tmp/creds] and the
    lock taken is the one beside the default credentials file. *)
Lemma lock_file_is_not_beside_store :
  locks (snd (update_creds_file Scenario.env1 "/tmp/creds" "prod:Admin"
                (Scenario.token_for Scenario.R1) world0))
  = [EvUnlock "/home/user/.aws/credentials.lck"; EvLock "/home/user/.aws/credentials.lck"]
  /\ Spec.lock_file "/tmp/creds" = "/tmp/creds.lck"
  /\ Spec.lock_file "/tmp/creds" <> "/home/user/.aws/credentials.lck".
Proof. repeat split. discriminate. Qed.

(** C3, amended: whatever store path is passed, the one lock
    [update_creds_file] takes and releases is [LOCK_FILE], the file
    [credentials.lck] in the AWS directory of the process environment;
    it is the sibling of the store only when the store is the default
    credentials file. *)
Theorem update_creds_file_lock (E : Env) (filename profile : string) (token : Token)
  (w : world) :
  locks (snd (update_creds_file E filename profile token w))
  = EvUnlock (LOCK_FILE E) :: EvLock (LOCK_FILE E) :: locks w
  /\ LOCK_FILE E = Spec.lock_file (path_join (AWS_DIR E) "credentials").
Proof.
  split; [|reflexivity].
  unfold update_creds_file. apply locks_interprocess_locked.
  apply keeps_locks_bind; [apply keeps_locks_load|]. intros c0.
  apply keeps_locks_bind.
  { destruct (has_section c0 profile); [apply keeps_locks_ret|apply keeps_locks_mutate]. }
  intros c1. do 4 (apply keeps_locks_bind; [apply keeps_locks_mutate|]; intros ?).
  apply keeps_locks_bind; [intros w'; reflexivity|]. intros t.
  apply keeps_locks_bind; [apply keeps_locks_mutate|]. intros c6.
  unfold write_file. apply keeps_locks_bind.
  - apply keeps_locks_emit. reflexivity.
  - intros _ w'. reflexivity.
Qed.

(** ** The account guard of authenticate *)

Lemma dies_only_bind {A B} (P : string -> Prop) (m : M A) (k : A -> M B) :
  dies_only P m ->
  (forall w a w', m w = (Ok a, w') -> forall msg, fst (k a w') = Died msg -> P msg) ->
  dies_only P (bind m k).
Proof.
  intros Hm Hk w msg. unfold bind. specialize (Hm w).
  destruct (m w) as [[a| m0 | e |] w'] eqn:Hmw; simpl in *; try discriminate.
  - apply (Hk w a w' Hmw).
  - intros [= <-]. apply Hm. reflexivity.
Qed.

Lemma dies_only_bind' {A B} (P : string -> Prop) (m : M A) (k : A -> M B) :
  dies_only P m -> (forall a, dies_only P (k a)) -> dies_only P (bind m k).
Proof.
  intros Hm Hk. apply dies_only_bind; [assumption|].
  intros w a w' _ msg. apply Hk.
Qed.

Lemma dies_only_ret {A} P (a : A) : dies_only P (ret a).
Proof. intros w msg; discriminate. Qed.

Lemma dies_only_raise {A} P (e : exn) : dies_only P (@raise A e).
Proof. intros w msg; discriminate. Qed.

Lemma dies_only_emit P (E : Env) (ev : event) : dies_only P (emit E ev).
Proof. intros w msg; discriminate. Qed.

Lemma dies_only_warn P (E : Env) (m : string) : dies_only P (warn E m).
Proof. intros w msg; discriminate. Qed.

Lemma dies_only_get_world P : dies_only P get_world.
Proof. intros w msg; discriminate. Qed.

Lemma dies_only_die {A} (P : string -> Prop) (E : Env) (m : string) :
  P m -> dies_only P (@die E A m).
Proof. intros H w msg [= <-]. exact H. Qed.

Lemma dies_only_index {A} P (l : list A) (i : nat) : dies_only P (lift (index l i)).
Proof. intros w msg. unfold lift, index. destruct (l !! i); discriminate. Qed.

Lemma dies_only_get_sts_token P (E : Env) (role_arn principal_arn assertion region : string) :
  dies_only P (get_sts_token E role_arn principal_arn assertion region).
Proof.
  unfold get_sts_token. apply dies_only_bind'; [intros w msg; discriminate|]. intros n.
  apply dies_only_bind'; [apply dies_only_emit|]. intros _.
  destruct (assume_role_with_saml E n role_arn principal_arn assertion region) as [t|[e|e]].
  - apply dies_only_ret.
  - apply dies_only_bind'; [apply dies_only_warn|]. intros _. apply dies_only_ret.
  - apply dies_only_raise.
Qed.

Lemma dies_only_get_account_alias P (E : Env) (token : Token) :
  dies_only P (get_account_alias E token).
Proof.
  unfold get_account_alias. apply dies_only_bind'; [apply dies_only_emit|]. intros _.
  destruct (list_account_aliases E token) as [l|[e|e]].
  - apply dies_only_index.
  - apply dies_only_bind'; [apply dies_only_warn|]. intros _. apply dies_only_index.
  - apply dies_only_raise.
Qed.

Lemma dies_only_get_account_name P (E : Env) (account_arn saml_response role_arn region : string) :
  dies_only P (get_account_name E account_arn saml_response role_arn region).
Proof.
  unfold get_account_name. apply dies_only_bind'; [apply dies_only_get_world|]. intros w0.
  apply dies_only_bind'.
  - destruct (name_map w0 !! account_arn); [apply dies_only_ret|].
    apply dies_only_bind'; [apply dies_only_get_sts_token|]. intros [token|].
    + apply dies_only_bind'; [apply dies_only_get_account_alias|]. intros alias.
      apply dies_only_bind'; [apply dies_only_get_world|]. intros w1.
      intros w msg; discriminate.
    + apply dies_only_ret.
  - intros _. apply dies_only_bind'; [apply dies_only_get_world|]. intros w1.
    destruct (name_map w1 !! account_arn); apply dies_only_ret.
Qed.

Lemma first_principal_in (E : Env) (r : regex E) (roles : list binding) (p : string) :
  first_principal E r roles = Some p -> exists role_arn, (p, role_arn) ∈ roles.
Proof.
  unfold first_principal. induction roles as [|[p0 r0] roles IH]; simpl; [discriminate|].
  destruct (re_search E r p0).
  - intros [= <-]. exists r0. apply list_elem_of_here.
  - intros H. destruct (IH H) as [ra Hra]. exists ra. apply list_elem_of_further, Hra.
Qed.

Lemma first_alias_in (E : Env) (r : regex E) (saml_response region : string)
  (roles : list binding) :
  forall w p w',
    first_alias E r saml_response region roles w = (Ok (Some p), w') ->
    exists role_arn, (p, role_arn) ∈ roles.
Proof.
  induction roles as [|[p0 r0] roles IH]; intros w p w'; simpl.
  - discriminate.
  - unfold bind at 1.
    destruct (get_account_name E p0 saml_response r0 region w) as [[name| | |] w1];
      try discriminate.
    destruct (re_search E r name).
    + intros [= <- <-]. exists r0. apply list_elem_of_here.
    + intros H. destruct (IH _ _ _ H) as [ra Hra]. exists ra.
      apply list_elem_of_further, Hra.
Qed.

Lemma dies_only_first_alias P (E : Env) (r : regex E) (saml_response region : string)
  (roles : list binding) :
  dies_only P (first_alias E r saml_response region roles).
Proof.
  induction roles as [|[p0 r0] roles IH]; simpl; [apply dies_only_ret|].
  apply dies_only_bind'; [apply dies_only_get_account_name|]. intros name.
  destruct (re_search E r name); [apply dies_only_ret|exact IH].
Qed.

Lemma dies_only_compile P (E : Env) (pattern : string) : dies_only P (compile E pattern).
Proof. unfold compile. destruct (re_compile E pattern); [apply dies_only_ret|apply dies_only_raise]. Qed.

Lemma dies_only_select_account P (E : Env) (account : option string)
  (saml_response region : string) (roles : list binding) :
  dies_only P (select_account E account saml_response region roles).
Proof.
  unfold select_account. destruct (PyStr.truthy account); [|apply dies_only_ret].
  apply dies_only_bind'; [apply dies_only_compile|]. intros r.
  apply dies_only_bind'; [|intros; apply dies_only_ret].
  destruct (negb _); [|apply dies_only_ret].
  apply dies_only_bind'; [apply dies_only_first_alias|]. intros; apply dies_only_ret.
Qed.

(** The principal chosen by the account selector comes from the
    bindings of the assertion. *)
Lemma select_account_in (E : Env) (account : option string) (saml_response region : string)
  (roles : list binding) (w w' : world) (a : option string) (p : string) :
  select_account E account saml_response region roles w = (Ok (a, Some p), w') ->
  PyStr.truthy (Some p) = true ->
  exists role_arn, (p, role_arn) ∈ roles.
Proof.
  unfold select_account. destruct (PyStr.truthy account); [|discriminate].
  unfold bind at 1.
  destruct (compile E _ w) as [[r| | |] w0]; try discriminate.
  destruct (first_principal E r roles) as [p0|] eqn:Hfp.
  - destruct (PyStr.truthy (Some p0)) eqn:Ht0; cbn [negb].
    + unfold bind, ret. intros [= _ <- _] _. apply (first_principal_in E r), Hfp.
    + unfold bind, ret.
      destruct (first_alias E r saml_response region roles w0) as [[[q|]| | |] w1] eqn:Hfa;
        try discriminate.
      * intros [= _ <- _] _. apply (first_alias_in E r saml_response region roles _ _ _ Hfa).
      * intros [= _ <- _] Ht. rewrite Ht in Ht0. discriminate.
  - cbn [PyStr.truthy negb]. unfold bind, ret.
    destruct (first_alias E r saml_response region roles w0) as [[[q|]| | |] w1] eqn:Hfa;
      try discriminate.
    intros [= _ <- _] _. apply (first_alias_in E r saml_response region roles _ _ _ Hfa).
Qed.

Lemma dies_only_ntlm_authenticate (E : Env) (url domain username : string)
  (password : option string) (batch : bool) :
  dies_only other_message (ntlm_authenticate E url domain username password batch).
Proof.
  assert (Hdie : forall A (m : string) c rest,
             c <> "A"%char -> m = String c rest -> dies_only other_message (@die E A m)).
  { intros A m c rest Hc ->. apply dies_only_die. intros a [= Heq _]. contradiction. }
  unfold ntlm_authenticate.
  destruct (negb (PyStr.truthy (Some url))).
  { eapply Hdie; [|reflexivity]. discriminate. }
  destruct (negb (PyStr.truthy (Some domain))).
  { eapply Hdie; [|reflexivity]. discriminate. }
  apply dies_only_bind'.
  { destruct (PyStr.truthy (Some username)); [apply dies_only_ret|].
    apply dies_only_bind'.
    - destruct batch; [apply dies_only_ret|].
      apply dies_only_bind'; [apply dies_only_emit|]. intros; apply dies_only_ret.
    - intros typed. destruct (PyStr.truthy (Some typed)); [apply dies_only_ret|].
      eapply Hdie; [|reflexivity]. discriminate. }
  intros username'. apply dies_only_bind'.
  { destruct (PyStr.truthy password); [apply dies_only_ret|].
    apply dies_only_bind'.
    - destruct batch; [apply dies_only_ret|].
      apply dies_only_bind'; [apply dies_only_emit|]. intros; apply dies_only_ret.
    - intros typed. destruct (PyStr.truthy typed); [apply dies_only_ret|].
      eapply Hdie; [|reflexivity]. discriminate. }
  intros password'. apply dies_only_bind'; [apply dies_only_emit|]. intros _.
  destruct (last_value _) as [[|c r]|]; try apply dies_only_ret;
    (eapply Hdie; [|reflexivity]; discriminate).
Qed.

Lemma dies_only_extract_roles P (E : Env) (saml_response : string) :
  dies_only P (extract_roles E saml_response).
Proof.
  assert (Hc : forall A B (f : A -> result B) l,
             (forall x msg, f x <> Died msg) -> forall msg, comprehension f l <> Died msg).
  { intros A B f l Hf. induction l as [|x l IH]; intros msg; simpl; [discriminate|].
    specialize (Hf x). destruct (f x) as [y|m|e|]; try discriminate.
    - specialize (IH msg).
      destruct (comprehension f l) as [ys|m|e|]; try discriminate.
      intros [= ->]. apply IH. reflexivity.
    - intros [= ->]. apply (Hf msg). reflexivity. }
  assert (Hv : forall v msg, value_binding v <> Died msg).
  { intros v msg. unfold value_binding, role_tuple.
    destruct (text_of v); [|discriminate].
    destruct (PyStr.split "," s) as [|a [|b [|c l]]]; discriminate. }
  unfold extract_roles. destruct (fromstring_b64decode E saml_response) as [root|];
    [|apply dies_only_raise].
  intros w msg. unfold lift, extract_roles_of. cbn [fst].
  pose proof (Hc _ _ (fun attr => comprehension value_binding (iter ATTRIBUTE_VALUE_URN attr))
                (role_attributes root) (fun x m => Hc _ _ value_binding _ Hv m)) as H.
  destruct (comprehension _ (role_attributes root)) as [ys|m|e|]; try discriminate.
  intros [= ->]. exfalso. apply (H msg). reflexivity.
Qed.

Lemma dies_only_select_role (E : Env) (role account_arn : option string)
  (roles : list binding) :
  dies_only other_message (select_role E role account_arn roles).
Proof.
  unfold select_role. destruct role as [[|c r]|]; try apply dies_only_ret.
  apply dies_only_bind'.
  - destruct (PyStr.startswith _ _); [apply dies_only_ret|].
    apply dies_only_bind'; [apply dies_only_compile|]. intros; apply dies_only_ret.
  - intros [|b l]; [|apply dies_only_ret].
    apply dies_only_die. intros a.
    destruct account_arn as [[|c' r']|]; intros [=].
Qed.

(** X1: the guard of line 98, [if account_arn and not roles], never fires:
    the chosen principal is the principal of one of the bindings, so
    the bindings kept for it are never empty. *)
Theorem account_not_found_unreachable (E : Env) (url region : string)
  (batch all_accounts : bool) (account : option string) (domain : string)
  (role : option string) (username : string) (password : option string) (w : world)
  (a : string) :
  fst (authenticate_select E url region batch all_accounts account domain role username
         password w)
  <> Died (account_not_found a).
Proof.
  intros Hdied.
  cut (dies_only other_message
         (authenticate_select E url region batch all_accounts account domain role
            username password)).
  { intros H. exact (H w _ Hdied a eq_refl). }
  clear. unfold authenticate_select.
  destruct (negb _).
  { apply dies_only_die. intros a0 [=]. }
  destruct (_ && _)%bool.
  { apply dies_only_die. intros a0 [=]. }
  apply dies_only_bind'; [apply dies_only_ntlm_authenticate|]. intros [creds saml_response].
  apply dies_only_bind'; [apply dies_only_extract_roles|]. intros roles.
  apply dies_only_bind; [apply dies_only_select_account|].
  intros w0 [account' account_arn] w1 Hsel msg.
  destruct account_arn as [[|c p]|].
  - apply (dies_only_bind' other_message); [apply dies_only_select_role|].
    intros; apply dies_only_ret.
  - destruct (select_account_in E _ _ _ _ _ _ _ _ Hsel eq_refl) as [role_arn Hin].
    destruct (filter _ roles) as [|b l] eqn:Hf.
    + exfalso. assert (Hb : (String c p, role_arn) ∈ filter (fun b => fst b = String c p) roles).
      { apply list_elem_of_filter. split; [reflexivity|exact Hin]. }
      rewrite Hf in Hb. inversion Hb.
    + apply (dies_only_bind' other_message); [apply dies_only_select_role|].
      intros; apply dies_only_ret.
  - apply (dies_only_bind' other_message); [apply dies_only_select_role|].
    intros; apply dies_only_ret.
Qed.

(** C1: when the account selector matches no principal and no alias the
    run must die with a message naming the account, before any worker
    is started.  The code breaks this: the selector [nomatch] matches
    neither the principal nor the alias [prod], the guard of line 98
    stays silent, and the run goes on to start a worker for the binding
    of the assertion, which exchanges a token and writes the store. *)
Theorem unmatched_account_runs_every_binding :
  let r := Scenario.run_authenticate Scenario.env1 false (Some "nomatch") None "/tmp/creds" in
  fst r = Ok tt
  /\ rev (trace (snd r))
     = [EvHttpGet "https://adfs.example/ls" "CORP\user";
        EvAssumeRole Scenario.R1 Scenario.P1;
        EvListAliases "AKIAEXAMPLE";
        EvSpawn Scenario.P1 Scenario.R1;
        EvHttpGet "https://adfs.example/ls" "CORP\user";
        EvAssumeRole Scenario.R1 Scenario.P1;
        EvStdout ("Writing credentials for profile prod:Admin" +:+ newline);
        EvLock "/home/user/.aws/credentials.lck";
        EvWriteFile "/tmp/creds";
        EvUnlock "/home/user/.aws/credentials.lck";
        EvJoin]
  /\ (fun c => has_section c "prod:Admin") <$> files (snd r) !! "/tmp/creds" = Some true.
Proof. vm_compute. repeat split. Qed.

(** ** The write of update_creds_file *)









(** C4: with the empty profile name the writer does not leave the
    other profiles intact.  New to a store that holds [dev] and [test],
    the empty name makes the writer end normally with a parser table,
    handed to the write of the file, in which the added section is empty
    and the five keys are in the DEFAULT section; the sections [dev] and
    [test] are as they were, but under this table [dev] reads the
    session token and the time stamp of the written role, which it did
    not have before. *)
Theorem empty_profile_lands_in_defaults :
  let token := Scenario.token_for Scenario.R1 in
  let r := update_creds_file Scenario.env1 "/tmp/creds" "" token Scenario.world12 in
  let dev := <["region" := "eu-west-1"]> (<["aws_access_key_id" := "AKIADEV"]> ∅) in
  let written :=
    {| defaults := Spec.profile_section token "2026-01-01T00:00:00Z";
       sections := <["" := ∅]> (sections Scenario.store12) |} in
  read Scenario.world12 "/tmp/creds" = Scenario.store12
  /\ sections Scenario.store12 !! "" = None
  /\ sections Scenario.store12 !! "dev" = Some dev
  /\ items Scenario.store12 dev !! "aws_session_token" = None
  /\ fst r = Ok tt
  /\ trace (snd r)
     = [EvUnlock (LOCK_FILE Scenario.env1); EvWriteFile "/tmp/creds";
        EvLock (LOCK_FILE Scenario.env1)]
  /\ lc_config (snd r) = Some written
  /\ sections written !! "" = Some ∅
  /\ sections written !! "dev" = Some dev
  /\ items written dev !! "aws_session_token" = Some (SessionToken token)
  /\ items written dev !! "last_updated" = Some "2026-01-01T00:00:00Z".
Proof. cbv zeta. repeat split; vm_compute; reflexivity. Qed.

(** ** extract_roles *)

Lemma split_no_comma (t : string) :
  count_char "," t = 0%nat -> PyStr.split "," t = [t].
Proof.
  induction t as [|c t IH]; simpl; [reflexivity|].
  destruct (Ascii.eqb c ","); [discriminate|]. intros H. rewrite (IH H). reflexivity.
Qed.

Lemma split_one_comma (t : string) :
  count_char "," t = 1%nat ->
  exists a b, PyStr.split "," t = [a; b] /\ Spec.split_first_comma t = Some (a, b).
Proof.
  induction t as [|c t IH]; simpl; [discriminate|].
  destruct (Ascii.eqb c ",") eqn:Hc.
  - intros [= H]. exists EmptyString, t. rewrite (split_no_comma t H). split; reflexivity.
  - intros H. destruct (IH H) as (a & b & Hs & Hf). exists (String c a), b.
    rewrite Hs, Hf. split; reflexivity.
Qed.

Lemma value_binding_one_comma (value : element) :
  one_comma value = true -> exists b, value_binding value = Ok b /\ binding_of value b.
Proof.
  unfold one_comma, value_binding, binding_of. destruct (text_of value) as [t|]; [|discriminate].
  intros H. apply Nat.eqb_eq in H. destruct (split_one_comma t H) as (a & b & Hs & Hf).
  exists (a, b). rewrite Hs. split; [reflexivity|]. exists t. split; [reflexivity|exact Hf].
Qed.

Lemma comprehension_ok {A B} (f : A -> result B) (R : A -> B -> Prop) (l : list A) :
  Forall (fun x => exists y, f x = Ok y /\ R x y) l ->
  exists ys, comprehension f l = Ok ys /\ Forall2 R l ys.
Proof.
  induction 1 as [|x l (y & Hy & HR) _ (ys & Hys & HF)]; simpl.
  - exists []. split; [reflexivity|constructor].
  - exists (y :: ys). rewrite Hy, Hys. split; [reflexivity|constructor; assumption].
Qed.

Lemma Forall2_concat_lists {A B} (R : A -> B -> Prop) (ls : list (list A))
  (ks : list (list B)) :
  Forall2 (Forall2 R) ls ks -> Forall2 R (concat ls) (concat ks).
Proof.
  induction 1 as [|l k ls ks Hlk _ IH]; simpl; [constructor|].
  apply Forall2_app; assumption.
Qed.

(** C5: a value whose role part holds a comma is not split at its
    first comma into a binding: [split(',')] cuts it at both commas, the
    three pieces do not fit the two fields of the tuple, and the
    extraction raises [TypeError], also for the well-formed value
    beside it. *)
Theorem role_with_comma_raises :
  let value := "arn:aws:iam::123456789012:saml-provider/X,arn:aws:iam::123456789012:role/a,b" in
  Spec.split_first_comma value
  = Some ("arn:aws:iam::123456789012:saml-provider/X", "arn:aws:iam::123456789012:role/a,b")
  /\ PyStr.split "," value
     = ["arn:aws:iam::123456789012:saml-provider/X"; "arn:aws:iam::123456789012:role/a"; "b"]
  /\ extract_roles_of (Scenario.response [value]) = Raised TypeError
  /\ extract_roles_of (Scenario.response [Scenario.P1 +:+ "," +:+ Scenario.R1; value])
     = Raised TypeError
  /\ fst (extract_roles Scenario.env1 "PHNhbWw+" world0)
     = Ok [(Scenario.P1, Scenario.R1)].
Proof. cbv zeta. repeat split; reflexivity. Qed.

(** When each of the attribute values under the role attribute holds
    exactly one comma, the extraction returns one binding for each, in
    the order of [role_values], each the value split at its comma into
    principal and role. *)
Lemma extract_roles_one_comma (root : element) :
  Forall (fun value => one_comma value = true) (role_values root) ->
  exists bindings,
    extract_roles_of root = Ok bindings
    /\ length bindings = length (role_values root)
    /\ Forall2 binding_of (role_values root) bindings.
Proof.
  unfold role_values, extract_roles_of. intros H.
  assert (Hattrs : Forall (fun attr =>
                     exists bs, comprehension value_binding (iter ATTRIBUTE_VALUE_URN attr) = Ok bs
                                /\ Forall2 binding_of (iter ATTRIBUTE_VALUE_URN attr) bs)
                     (role_attributes root)).
  { induction (role_attributes root) as [|attr attrs IH]; [constructor|].
    simpl in H. apply Forall_app in H as [Hhere Hrest]. constructor; [|exact (IH Hrest)].
    apply comprehension_ok. eapply Forall_impl; [exact Hhere|].
    intros value. apply value_binding_one_comma. }
  destruct (comprehension_ok _ _ _ Hattrs) as (sublists & Hc & HF).
  rewrite Hc. exists (concat sublists).
  assert (HR : Forall2 binding_of
                 (concat (map (iter ATTRIBUTE_VALUE_URN) (role_attributes root)))
                 (concat sublists)).
  { apply Forall2_concat_lists. apply Forall2_fmap_l. exact HF. }
  split; [reflexivity|]. split; [|exact HR].
  symmetry. apply (Forall2_length _ _ _ HR).
Qed.

Example extract_roles_two :
  extract_roles_of (Scenario.response [Scenario.P1 +:+ "," +:+ Scenario.R1;
                                       Scenario.P1 +:+ "," +:+ Scenario.R2])
  = Ok [(Scenario.P1, Scenario.R1); (Scenario.P1, Scenario.R2)].
Proof. reflexivity. Qed.

(** ** The refresh loop *)

Lemma spaced_from (next_update from from' : Z) (readings : list (Z * Z)) :
  from' <= from -> spaced next_update from readings -> spaced next_update from' readings.
Proof.
  intros Hle. destruct readings as [|[checked reported] rest]; [trivial|].
  cbn [spaced]. intros (H1 & H2 & H3 & H4). repeat split; [lia|assumption..].
Qed.

Lemma spaced_length (next_update : Z) (readings : list (Z * Z)) :
  forall (from : Z) (n : nat),
    spaced next_update from readings -> next_update - from <= 60 * Z.of_nat n ->
    (length readings <= n)%nat.
Proof.
  induction readings as [|[checked reported] rest IH]; intros from n Hsp Hn; cbn [length].
  - lia.
  - cbn [spaced] in Hsp. destruct Hsp as (H1 & H2 & H3 & Hrest).
    destruct n as [|n]; [lia|].
    specialize (IH (reported + 60) n Hrest). lia.
Qed.

(** The inner loop: with a clock that never goes back, [fuel] turns are
    enough once the deadline is no more than [60 * fuel] seconds away;
    the loop then ends at or after the deadline, having put on the trace
    the report and the nap of each of its turns and nothing else. *)
Lemma wait_refresh_turns (E : Env) (next_update : Z) :
  forward_clock E ->
  forall (fuel : nat) (w : world),
    next_update - now w <= 60 * Z.of_nat fuel ->
    exists w' readings,
      wait_refresh E (S fuel) next_update w = (Ok tt, w')
      /\ next_update <= now w'
      /\ trace w' = rev (flat_map (fun r => turn_events next_update (snd r)) readings) ++ trace w
      /\ spaced next_update (now w) readings.
Proof.
  intros [Hlat Htick] fuel. induction fuel as [|fuel IH]; intros w Hfuel.
  - exists (snd (time_time E w)), []. cbn [wait_refresh]. unfold bind, time_time. cbn [snd].
    assert (Hge : Z.ltb (now w) next_update = false) by (apply Z.ltb_ge; lia).
    rewrite Hge. cbn [now trace]. specialize (Htick (length (trace w)) (now w)).
    split; [reflexivity|]. split; [lia|]. split; [reflexivity|exact I].
  - change (wait_refresh E (S (S fuel)) next_update w)
      with (bind (time_time E)
              (fun t =>
                 if Z.ltb t next_update then
                   bind (time_time E)
                     (fun t' =>
                        let counter := (next_update - t') / 60 in
                        bind (print E (PyStr.str_of_int counter +:+ " minutes till credential refresh"
                                       +:+ carriage_return) "")
                          (fun _ => bind (time_sleep E 60)
                                      (fun _ => wait_refresh E (S fuel) next_update)))
                 else ret tt) w).
    unfold bind at 1. unfold time_time at 1. cbn [fst snd].
    pose proof (Htick (length (trace w)) (now w)) as Ht1.
    destruct (Z.ltb (now w) next_update) eqn:Hlt.
    + apply Z.ltb_lt in Hlt.
      unfold bind, time_time, print, emit, time_sleep. cbn [fst snd trace now].
      set (t' := now w + tick E (length (trace w)) (now w)) in *.
      match goal with
      | |- context [wait_refresh E (S fuel) next_update ?w2] => set (w2' := w2)
      end.
      pose proof (Htick (length (trace w)) t') as Ht2.
      pose proof (Hlat (length (trace w)) (report ((next_update - t') / 60))) as Hl1.
      pose proof (Hlat (length (report ((next_update - t') / 60) :: trace w)) (EvSleep 60)) as Hl2.
      assert (Hnow2 : t' + 60 <= now w2').
      { subst w2'. unfold report in *. cbn [now length] in *. lia. }
      destruct (IH w2') as (w' & rest & Hrun & Hnow & Htr & Hsp); [lia|].
      exists w', ((now w, t') :: rest).
      rewrite Hrun. repeat split; [exact Hnow| |lia|exact Hlt|lia|].
      * rewrite Htr. subst w2'. cbn [trace flat_map snd turn_events]. unfold report.
        rewrite rev_app_distr. cbn [rev app]. rewrite <- app_assoc. reflexivity.
      * exact (spaced_from _ _ _ _ Hnow2 Hsp).
    + apply Z.ltb_ge in Hlt. eexists _, []. split; [reflexivity|].
      cbn [now trace]. split; [lia|]. split; [reflexivity|exact I].
Qed.

Section Clock.

Context (E : Env) (Hlat : forward_clock E).

Lemma advances_bind {A B} (m : M A) (k : A -> M B) :
  advances m -> (forall a, advances (k a)) -> advances (bind m k).
Proof.
  intros Hm Hk w. unfold bind. specialize (Hm w).
  destruct (m w) as [[a| | |] w']; simpl in *; try assumption.
  specialize (Hk a w'). lia.
Qed.

Lemma advances_pure {A} (m : M A) : (forall w, now (snd (m w)) = now w) -> advances m.
Proof. intros H w. rewrite H. lia. Qed.

Lemma advances_emit (ev : event) : advances (emit E ev).
Proof. intros w. cbn [emit snd now]. pose proof (proj1 Hlat (length (trace w)) ev). lia. Qed.

Lemma advances_time : advances (time_time E).
Proof.
  intros w. cbn [time_time snd now]. pose proof (proj2 Hlat (length (trace w)) (now w)). lia.
Qed.

Lemma advances_die {A} (message : string) : advances (@die E A message).
Proof. intros w. unfold die. cbn [snd]. apply advances_emit. Qed.

Lemma advances_sleep (seconds : Z) : 0 <= seconds -> advances (time_sleep E seconds).
Proof.
  intros Hs w. cbn [time_sleep snd now].
  pose proof (proj1 Hlat (length (trace w)) (EvSleep seconds)). lia.
Qed.

Ltac advance :=
  intros;
  repeat first
    [ apply advances_emit
    | apply advances_time
    | apply advances_die
    | apply advances_pure; intros ?; reflexivity
    | apply advances_bind; [|intros ?]
    | match goal with
      | |- advances (match ?x with _ => _ end) => destruct x
      end ].

Lemma advances_ntlm_authenticate (url domain username : string) (password : option string)
  (batch : bool) :
  advances (ntlm_authenticate E url domain username password batch).
Proof. unfold ntlm_authenticate, warn. advance. Qed.

Lemma advances_get_sts_token (role_arn principal_arn assertion region : string) :
  advances (get_sts_token E role_arn principal_arn assertion region).
Proof. unfold get_sts_token, warn. advance. Qed.

Lemma advances_get_account_alias (token : Token) : advances (get_account_alias E token).
Proof. unfold get_account_alias, warn. advance. Qed.

Lemma advances_get_account_name (account_arn saml_response role_arn region : string) :
  advances (get_account_name E account_arn saml_response role_arn region).
Proof.
  unfold get_account_name.
  apply advances_bind; [advance|]. intros w0. apply advances_bind; [|advance].
  destruct (name_map w0 !! account_arn); [advance|].
  apply advances_bind; [apply advances_get_sts_token|]. intros [token|]; [|advance].
  apply advances_bind; [apply advances_get_account_alias|]. advance.
Qed.

Lemma advances_update_creds_file (filename profile : string) (token : Token) :
  advances (update_creds_file E filename profile token).
Proof.
  unfold update_creds_file. intros w. unfold interprocess_locked. cbn [snd].
  match goal with
  | |- _ <= now (snd (emit E _ (snd (?body ?w1)))) =>
      assert (Hbody : advances body); [|pose proof (Hbody w1) as H1;
        pose proof (advances_emit (EvUnlock (LOCK_FILE E)) (snd (body w1))) as H2;
        pose proof (advances_emit (EvLock (LOCK_FILE E)) w) as H0]
  end.
  - unfold load_credentials, mutate_credentials, write_file. advance.
  - cbn [snd] in *. lia.
Qed.

Lemma advances_authenticate_account_role (filename profile_format principal_arn : string)
  (role_arn : option string) (creds : saml_creds) (region : string) :
  advances (authenticate_account_role E filename profile_format principal_arn role_arn
              creds region).
Proof.
  unfold authenticate_account_role. destruct role_arn as [role_arn|]; [|advance].
  apply advances_bind.
  { destruct creds as [[[url domain] username] password]. apply advances_ntlm_authenticate. }
  intros [_ saml_response]. apply advances_bind; [apply advances_get_sts_token|].
  intros [token|]; [|advance].
  apply advances_bind; [apply advances_get_account_name|]. intros account_name.
  apply advances_bind; [advance|]. intros role_name.
  apply advances_bind; [unfold print; advance|]. intros _.
  apply advances_update_creds_file.
Qed.

Lemma start_process_total (filename profile : string) (creds : saml_creds) (region : string)
  (roles : list binding) (w : world) :
  exists w', for_each (start_process E filename profile creds region) roles w = (Ok tt, w')
             /\ now w <= now w'.
Proof.
  revert w. induction roles as [|b roles IH]; intros w; cbn [for_each].
  - exists w. split; [reflexivity|lia].
  - unfold bind at 1, start_process at 1.
    match goal with
    | |- context [restore_local w ?w2] => set (w2' := w2)
    end.
    destruct (IH (restore_local w w2')) as (w' & Hrun & Hnow).
    exists w'. split; [exact Hrun|].
    assert (now w <= now w2'); [|cbn [restore_local now] in Hnow; lia].
    subst w2'.
    pose proof (advances_authenticate_account_role filename profile (fst b) (Some (snd b))
                  creds region (snd (emit E (EvSpawn (fst b) (snd b)) w))) as H1.
    pose proof (advances_emit (EvSpawn (fst b) (snd b)) w) as H0. lia.
Qed.

Lemma join_total {A} (roles : list A) (w : world) :
  exists w', for_each (fun _ => emit E EvJoin) roles w = (Ok tt, w') /\ now w <= now w'.
Proof.
  revert w. induction roles as [|b roles IH]; intros w; cbn [for_each].
  - exists w. split; [reflexivity|lia].
  - unfold bind at 1.
    destruct (IH (snd (emit E EvJoin w))) as (w' & Hrun & Hnow).
    exists w'. split; [exact Hrun|]. pose proof (advances_emit EvJoin w). lia.
Qed.

End Clock.

(** C6, as stated, fails: a pass that begins at 0 and takes 100 seconds
    sets its deadline to 3640, 59 minutes after the workers were joined,
    and not to 3540, 59 minutes after it began; the loop is left at
    3640. *)
Lemma deadline_counts_from_join :
  let r := refresh_pass Scenario.env_slow 60 "/tmp/creds" "%a:%r" Scenario.creds1 "us-east-1"
             [(Scenario.P1, Scenario.R1)] true world0 in
  fst r = Ok (0, Some 3640)
  /\ now (snd r) = 3640
  /\ Spec.next_update 0 = 3540.
Proof. vm_compute. repeat split. Qed.

(** C6, amended: in continuous mode the deadline of a pass is counted
    from its end and not from its beginning.  Once the workers of the
    pass have been joined the scheduler reads the clock (for a
    diagnostic), reads it again and sets the deadline 59*60 seconds
    after that second reading, so no earlier than 59 minutes after the
    pass began, and later by the time the pass took.  It then takes
    turns: in each turn it finds the clock before the deadline, reads
    the clock again, reports the whole minutes from that reading to the
    deadline and naps 60 seconds.  The reports and naps of these turns,
    of which there are at most 59, are all that the wait puts on the
    trace; it ends with the clock at or after the deadline, and the pass
    is then repeated. *)
Theorem refresh_pass_waits_from_join (E : Env) (filename profile : string)
  (creds : saml_creds) (region : string) (roles : list binding) (fuel : nat) (w : world) :
  forward_clock E -> (59 <= fuel)%nat ->
  exists w_join next_update readings w',
    bind (for_each (start_process E filename profile creds region) roles)
      (fun _ => for_each (fun _ => emit E EvJoin) roles) (snd (time_time E w)) = (Ok tt, w_join)
    /\ now w <= now w_join
    /\ next_update = now (snd (time_time E w_join)) + 59 * 60
    /\ now w_join + 59 * 60 <= next_update
    /\ refresh_pass E (S fuel) filename profile creds region roles true w
       = (Ok (now w, Some next_update), w')
    /\ trace w'
       = rev (flat_map (fun r => turn_events next_update (snd r)) readings) ++ trace w_join
    /\ spaced next_update (next_update - 59 * 60) readings
    /\ (length readings <= 59)%nat
    /\ next_update <= now w'
    /\ refresh_loop E (S fuel) filename profile creds region roles true w
       = refresh_loop E fuel filename profile creds region roles true w'.
Proof.
  intros Hclock Hfuel.
  pose proof (advances_time E Hclock w) as Hnow0.
  destruct (start_process_total E Hclock filename profile creds region roles
              (snd (time_time E w))) as (w1 & Hstart & Hnow1).
  destruct (join_total E Hclock roles w1) as (w2 & Hjoin & Hnow2).
  pose proof (advances_time E Hclock w2) as Hnow3.
  pose proof (advances_time E Hclock (snd (time_time E w2))) as Hnow4.
  destruct (wait_refresh_turns E (now (snd (time_time E w2)) + 59 * 60) Hclock fuel
              (snd (time_time E (snd (time_time E w2)))))
    as (w' & readings & Hwait & Hnow' & Htr & Hsp); [lia|].
  assert (Hpass : refresh_pass E (S fuel) filename profile creds region roles true w
                  = (Ok (now w, Some (now (snd (time_time E w2)) + 59 * 60)), w')).
  { unfold refresh_pass. unfold bind at 1.
    change (time_time E w) with (Ok (now w), snd (time_time E w)). cbv iota.
    unfold bind at 1. rewrite Hstart.
    unfold bind at 1. rewrite Hjoin.
    unfold bind at 1.
    change (time_time E w2) with (Ok (now w2), snd (time_time E w2)). cbv iota.
    unfold bind at 1.
    change (time_time E (snd (time_time E w2)))
      with (Ok (now (snd (time_time E w2))), snd (time_time E (snd (time_time E w2)))).
    cbv iota. unfold bind at 1. rewrite Hwait. reflexivity. }
  exists w2, (now (snd (time_time E w2)) + 59 * 60), readings, w'.
  split; [unfold bind; rewrite Hstart; exact Hjoin|].
  split; [lia|]. split; [reflexivity|]. split; [lia|]. split; [exact Hpass|].
  split; [exact Htr|].
  assert (Hsp' : spaced (now (snd (time_time E w2)) + 59 * 60)
                   (now (snd (time_time E w2)) + 59 * 60 - 59 * 60) readings).
  { apply (spaced_from _ (now (snd (time_time E (snd (time_time E w2)))))); [lia|exact Hsp]. }
  split; [exact Hsp'|].
  split; [apply (spaced_length _ _ _ 59%nat Hsp'); lia|].
  split; [exact Hnow'|].
  cbn [refresh_loop]. unfold bind at 1. rewrite Hpass. reflexivity.
Qed.

Lemma refresh_pass_waits_from_join_witness :
  exists w_join next_update readings w',
    bind (for_each (start_process Scenario.env1 "/tmp/creds" "%a:%r" Scenario.creds1 "us-east-1")
            [(Scenario.P1, Scenario.R1)])
      (fun _ => for_each (fun _ => emit Scenario.env1 EvJoin) [(Scenario.P1, Scenario.R1)])
      (snd (time_time Scenario.env1 world0)) = (Ok tt, w_join)
    /\ now world0 <= now w_join
    /\ next_update = now (snd (time_time Scenario.env1 w_join)) + 59 * 60
    /\ now w_join + 59 * 60 <= next_update
    /\ refresh_pass Scenario.env1 60 "/tmp/creds" "%a:%r" Scenario.creds1 "us-east-1"
         [(Scenario.P1, Scenario.R1)] true world0
       = (Ok (now world0, Some next_update), w')
    /\ trace w'
       = rev (flat_map (fun r => turn_events next_update (snd r)) readings) ++ trace w_join
    /\ spaced next_update (next_update - 59 * 60) readings
    /\ (length readings <= 59)%nat
    /\ next_update <= now w'
    /\ refresh_loop Scenario.env1 60 "/tmp/creds" "%a:%r" Scenario.creds1 "us-east-1"
         [(Scenario.P1, Scenario.R1)] true world0
       = refresh_loop Scenario.env1 59 "/tmp/creds" "%a:%r" Scenario.creds1 "us-east-1"
           [(Scenario.P1, Scenario.R1)] true w'.
Proof.
  apply (refresh_pass_waits_from_join Scenario.env1 "/tmp/creds" "%a:%r" Scenario.creds1
           "us-east-1" [(Scenario.P1, Scenario.R1)] 59 world0).
  - split; intros n ev; unfold Scenario.env1, Scenario.env, Scenario.no_latency; simpl; lia.
  - lia.
Defined.

(** With a clock that moves one second at each reading the first
    report of the wait is of 58 minutes, and with one that stands still
    between the readings it is of 59. *)
Example first_report :
  let wait E := bind (time_time E) (fun t => wait_refresh E 60 (t + 59 * 60)) in
  last (trace (snd (wait (Scenario.ticking Scenario.env1) world0))) = Some (report 58)
  /\ last (trace (snd (wait Scenario.env1 world0))) = Some (report 59).
Proof. vm_compute. split; reflexivity. Qed.

(** ** Integer account selectors *)

Lemma literal_string_of_uint (d : Decimal.uint) :
  PyRe.literal (NilEmpty.string_of_uint d) = true.
Proof. induction d; simpl; try assumption; reflexivity. Qed.

Lemma literal_str_of_int (n : Z) : PyRe.literal (PyStr.str_of_int n) = true.
Proof.
  unfold PyStr.str_of_int, NilZero.string_of_int, NilZero.string_of_uint.
  destruct (Z.to_int n) as [d|d]; destruct d;
    try reflexivity; try apply (literal_string_of_uint (_ d));
    cbn [PyRe.literal]; rewrite ?(literal_string_of_uint (_ d)); reflexivity.
Qed.

Lemma bind_ret {A B} (a : A) (k : A -> M B) : bind (ret a) k = k a.
Proof. reflexivity. Qed.

Lemma int_nonempty (s : string) (n : Z) : PyStr.int s = Some n -> PyStr.truthy (Some s) = true.
Proof. destruct s; [discriminate|reflexivity]. Qed.

Lemma find_pointwise {A} (f g : A -> bool) (l : list A) :
  (forall x, f x = g x) -> find f l = find g l.
Proof.
  intros H. induction l as [|x l IH]; simpl; [reflexivity|].
  rewrite H, IH. reflexivity.
Qed.

(** C9: an account selector that parses as an integer is not matched
    against the account number exactly.  Of the accounts 012345678901
    and 123456789012, the selector [12345], the number of neither,
    selects the second, whose number begins with these digits; the
    selector [012345678901] loses its zero and selects the second
    account instead of the first; and the selector [0] is kept as a
    pattern and selects the first account, whose identifier holds a
    zero. *)
Theorem integer_account_is_no_exact_match :
  let select account := fst (Scenario.run_select Scenario.env2 false (Some account) None) in
  fst (Scenario.run_select Scenario.env2 true None None)
  = Ok (Scenario.creds1, [(Scenario.P0, Scenario.R0); (Scenario.P1, Scenario.R1)])
  /\ Spec.account_number Scenario.P0 = Some 12345678901
  /\ Spec.account_number Scenario.P1 = Some 123456789012
  /\ PyStr.int "12345" = Some 12345
  /\ account_pattern "12345" = "arn:aws:iam::12345"
  /\ select "12345" = Ok (Scenario.creds1, [(Scenario.P1, Scenario.R1)])
  /\ PyStr.int "012345678901" = Some 12345678901
  /\ account_pattern "012345678901" = "arn:aws:iam::12345678901"
  /\ select "012345678901" = Ok (Scenario.creds1, [(Scenario.P1, Scenario.R1)])
  /\ PyStr.int "0" = Some 0
  /\ account_pattern "0" = "0"
  /\ select "0" = Ok (Scenario.creds1, [(Scenario.P0, Scenario.R0)]).
Proof. cbv zeta. repeat split; vm_compute; reflexivity. Qed.

Lemma literal_engine_env1 : PyRe.literal_engine Scenario.env1.
Proof.
  intros p Hp. exists p. split; [|reflexivity].
  cbn. unfold Scenario.literal_compile. rewrite Hp. reflexivity.
Qed.

(** What the code does with a selector that [int] reads as a number
    [n] other than zero, on an engine that searches a pattern without
    metacharacters as plain text: the text [arn:aws:iam::] followed by
    [n] in decimal is searched for in the principal identifiers, and
    the bindings of the first principal that contains it are kept. *)
Lemma integer_account_selects_by_text (E : Env) (url region : string) (batch : bool)
  (account : string) (n : Z) (domain username : string) (password : option string)
  (w w1 w2 : world) (creds : saml_creds) (saml_response : string) (roles : list binding)
  (b0 : binding) :
  PyRe.literal_engine E ->
  PyStr.int account = Some n -> n <> 0 ->
  ntlm_authenticate E url domain username password batch w = (Ok (creds, saml_response), w1) ->
  extract_roles E saml_response w1 = (Ok roles, w2) ->
  find (fun b => PyStr.contains ("arn:aws:iam::" +:+ PyStr.str_of_int n) (fst b)) roles
  = Some b0 ->
  authenticate_select E url region batch false (Some account) domain None username password w
  = (Ok (creds, remove_dups (filter (fun b => fst b = fst b0) roles)), w2).
Proof.
  intros Hre Hint Hn Hntlm Hx Hfind.
  unfold authenticate_select.
  rewrite (int_nonempty _ _ Hint). cbn [orb andb negb].
  unfold bind at 1. rewrite Hntlm.
  unfold bind at 1. rewrite Hx.
  unfold select_account. rewrite (int_nonempty _ _ Hint).
  unfold account_pattern. rewrite Hint.
  apply Z.eqb_neq in Hn. rewrite Hn.
  destruct (Hre ("arn:aws:iam::" +:+ PyStr.str_of_int n)) as (r & Hc & Hs).
  { cbn. apply literal_str_of_int. }
  unfold compile. rewrite Hc, bind_ret.
  unfold first_principal.
  assert (Hfp : find (fun b : string * string => re_search E r (fst b)) roles = Some b0).
  { rewrite <- Hfind. apply find_pointwise. intros b. apply Hs. }
  rewrite Hfp. cbn [fmap option_fmap option_map].
  pose proof (find_some _ _ Hfind) as [Hin Hcontains].
  destruct (fst b0) as [|c p] eqn:Hb0; [discriminate Hcontains|].
  cbn [PyStr.truthy negb]. unfold bind, ret.
  match goal with
  | |- context [match ?f with [] => _ | _ :: _ => _ end] => destruct f as [|b l] eqn:Hf
  end.
  - assert (Hmem : b0 ∈ @nil binding); [|inversion Hmem].
    rewrite <- Hf. apply list_elem_of_filter.
    split; [exact Hb0|apply list_elem_of_In, Hin].
  - reflexivity.
Qed.

(** ** get_account_name *)

Lemma replace_from_lacking (c0 : ascii) (old' new x s : string) :
  PyStr.lacks c0 x = true ->
  PyStr.replace_from (String c0 old') new 0 (x +:+ s)
  = x +:+ PyStr.replace_from (String c0 old') new 0 s.
Proof.
  induction x as [|a x IH]; intros Hx; [reflexivity|].
  cbn [PyStr.lacks] in Hx. apply andb_true_iff in Hx as [Ha Hx].
  apply negb_true_iff, Ascii.eqb_neq in Ha.
  change (String a x +:+ s) with (String a (x +:+ s)).
  cbn [PyStr.replace_from String.prefix].
  destruct (ascii_dec c0 a) as [->|_]; [congruence|].
  rewrite (IH Hx). reflexivity.
Qed.

(** A template that begins with text free of [%] and then [%a]: the
    name comes out as that text, the account name, and the rest of the
    template formatted. *)
Lemma profile_contains_account_name (pre post account_name role_name : string) :
  PyStr.lacks "%" pre = true -> PyStr.lacks "%" account_name = true ->
  PyStr.replace "%r" role_name (PyStr.replace "%a" account_name (pre +:+ "%a" +:+ post))
  = pre +:+ account_name
    +:+ PyStr.replace "%r" role_name (PyStr.replace "%a" account_name post).
Proof.
  intros Hpre Hname. cbn [PyStr.replace].
  rewrite (replace_from_lacking "%" "a" account_name pre _ Hpre).
  assert (Hocc : PyStr.replace_from "%a" account_name 0 ("%a" +:+ post)
                 = account_name +:+ PyStr.replace_from "%a" account_name 0 post).
  { destruct post; reflexivity. }
  rewrite Hocc.
  rewrite (replace_from_lacking "%" "r" role_name pre _ Hpre).
  rewrite (replace_from_lacking "%" "r" role_name account_name _ Hname).
  reflexivity.
Qed.

(** A call that finds no entry for the principal performs an exchange. *)
Lemma get_account_name_exchanges (E : Env) (account_arn saml_response role_arn region : string)
  (w : world) :
  name_map w !! account_arn = None ->
  exists evs,
    trace (snd (get_account_name E account_arn saml_response role_arn region w))
    = evs ++ EvAssumeRole role_arn account_arn :: trace w.
Proof.
  intros Hmap. unfold get_account_name, get_sts_token, count_sts_call, get_world, bind.
  rewrite Hmap. cbn [emit].
  destruct (assume_role_with_saml E (sts_calls w) role_arn account_arn saml_response region)
    as [token|[e|e]].
  - unfold ret, get_account_alias, bind. cbn [emit].
    destruct (list_account_aliases E token) as [[|alias l]|[e|e]]; cbn.
    + exists [EvListAliases (AccessKeyId token)]. reflexivity.
    + rewrite lookup_insert_eq. exists [EvListAliases (AccessKeyId token)]. reflexivity.
    + unfold index.
      destruct (PyStr.split ":" (AssumedRoleUserArn token) !! 5%nat) as [field|]; cbn.
      * rewrite lookup_insert_eq. eexists [_; _]. reflexivity.
      * eexists [_; _]. reflexivity.
    + exists [EvListAliases (AccessKeyId token)]. reflexivity.
  - cbn. rewrite Hmap. eexists [_]. reflexivity.
  - cbn. exists []. reflexivity.
Qed.

(** C10: when the exchange made for the account name is refused,
    [get_account_name] returns the principal identifier itself and
    raises nothing; the map of names is left as it was, so that a later
    call makes the exchange again; and a profile name formatted from a
    template with [%a] then holds the whole principal identifier. *)
Theorem get_account_name_without_token (E : Env)
  (account_arn saml_response role_arn region e : string) (w : world) :
  name_map w !! account_arn = None ->
  assume_role_with_saml E (sts_calls w) role_arn account_arn saml_response region
  = StsFailed (ClientError e) ->
  exists w',
    get_account_name E account_arn saml_response role_arn region w = (Ok account_arn, w')
    /\ name_map w' = name_map w
    /\ (forall saml_response' role_arn' region',
          exists evs,
            trace (snd (get_account_name E account_arn saml_response' role_arn' region' w'))
            = evs ++ EvAssumeRole role_arn' account_arn :: trace w')
    /\ (forall pre post role_name,
          PyStr.lacks "%" pre = true -> PyStr.lacks "%" account_arn = true ->
          PyStr.replace "%r" role_name
            (PyStr.replace "%a" account_arn (pre +:+ "%a" +:+ post))
          = pre +:+ account_arn
            +:+ PyStr.replace "%r" role_name (PyStr.replace "%a" account_arn post)).
Proof.
  intros Hmap Hsts.
  assert (Hrun : exists w',
             get_account_name E account_arn saml_response role_arn region w
             = (Ok account_arn, w') /\ name_map w' = name_map w).
  { unfold get_account_name, get_sts_token, count_sts_call, get_world, bind.
    rewrite Hmap. cbn [emit]. rewrite Hsts. cbn. rewrite Hmap.
    eexists. split; reflexivity. }
  destruct Hrun as (w' & Hrun & Hsame). exists w'.
  split; [exact Hrun|]. split; [exact Hsame|]. split.
  - intros saml_response' role_arn' region'. apply get_account_name_exchanges.
    rewrite Hsame. exact Hmap.
  - intros pre post role_name. apply profile_contains_account_name.
Qed.

Lemma get_account_name_without_token_witness :
  exists w',
    get_account_name Scenario.env_refused Scenario.P1 "PHNhbWw+" Scenario.R1 "us-east-1" world0
    = (Ok Scenario.P1, w')
    /\ name_map w' = name_map world0
    /\ (forall saml_response' role_arn' region',
          exists evs,
            trace (snd (get_account_name Scenario.env_refused Scenario.P1 saml_response'
                          role_arn' region' w'))
            = evs ++ EvAssumeRole role_arn' Scenario.P1 :: trace w')
    /\ (forall pre post role_name,
          PyStr.lacks "%" pre = true -> PyStr.lacks "%" Scenario.P1 = true ->
          PyStr.replace "%r" role_name
            (PyStr.replace "%a" Scenario.P1 (pre +:+ "%a" +:+ post))
          = pre +:+ Scenario.P1
            +:+ PyStr.replace "%r" role_name (PyStr.replace "%a" Scenario.P1 post)).
Proof.
  apply (get_account_name_without_token Scenario.env_refused Scenario.P1 "PHNhbWw+"
           Scenario.R1 "us-east-1" "AccessDenied" world0).
  - reflexivity.
  - reflexivity.
Defined.

(** In a worker whose own exchange succeeds and whose exchange for the
    account name is refused, the profile written is named after the
    principal identifier. *)
Example worker_profile_named_after_principal :
  let r := authenticate_account_role Scenario.env_once "/tmp/creds" "%a:%r" Scenario.P1
             (Some Scenario.R1) Scenario.creds1 "us-east-1" world0 in
  fst r = Ok tt
  /\ (fun c => has_section c (Scenario.P1 +:+ ":Admin")) <$> files (snd r) !! "/tmp/creds"
     = Some true.
Proof. vm_compute. split; reflexivity. Qed.

(** ** Observations kept by the module *)

Lemma stable_bind {X A B} (obs : world -> X) (m : M A) (k : A -> M B) :
  stable obs m -> (forall a, stable obs (k a)) -> stable obs (bind m k).
Proof.
  intros Hm Hk w. unfold bind. specialize (Hm w).
  destruct (m w) as [[a| | |] w']; simpl in *; try assumption.
  rewrite Hk. assumption.
Qed.

Ltac keep :=
  intros;
  repeat first
    [ apply stable_bind; [|intros ?]
    | match goal with
      | |- stable _ (match ?x with _ => _ end) => destruct x
      end
    | solve [intros ?; reflexivity] ].

Lemma stable_locked {X A} (E : Env) (obs : world -> X) (path : string) (body : M A) :
  stable obs (emit E (EvLock path)) -> stable obs (emit E (EvUnlock path)) ->
  stable obs body -> stable obs (interprocess_locked E path body).
Proof.
  intros Hl Hu Hb w. unfold interprocess_locked. cbn [snd]. rewrite Hu, Hb, Hl. reflexivity.
Qed.

Section Kept.

Context (E : Env).

(** *** The files *)

Lemma files_ntlm_authenticate (url domain username : string) (password : option string)
  (batch : bool) :
  stable files (ntlm_authenticate E url domain username password batch).
Proof. unfold ntlm_authenticate. keep. Qed.

Lemma files_get_sts_token (role_arn principal_arn assertion region : string) :
  stable files (get_sts_token E role_arn principal_arn assertion region).
Proof. unfold get_sts_token. keep. Qed.

Lemma files_get_account_alias (token : Token) : stable files (get_account_alias E token).
Proof. unfold get_account_alias. keep. Qed.

Lemma files_get_account_name (account_arn saml_response role_arn region : string) :
  stable files (get_account_name E account_arn saml_response role_arn region).
Proof.
  unfold get_account_name. apply stable_bind; [keep|]. intros w0.
  apply stable_bind; [|keep].
  destruct (name_map w0 !! account_arn); [keep|].
  apply stable_bind; [apply files_get_sts_token|]. intros [token|]; [|keep].
  apply stable_bind; [apply files_get_account_alias|]. keep.
Qed.

Lemma files_first_alias (r : regex E) (saml_response region : string) (roles : list binding) :
  stable files (first_alias E r saml_response region roles).
Proof.
  induction roles as [|[p0 r0] roles IH]; cbn [first_alias]; [keep|].
  apply stable_bind; [apply files_get_account_name|]. intros name.
  destruct (re_search E r name); [keep|exact IH].
Qed.

Lemma files_select_account (account : option string) (saml_response region : string)
  (roles : list binding) :
  stable files (select_account E account saml_response region roles).
Proof.
  unfold select_account, compile. destruct (PyStr.truthy account); [|keep].
  apply stable_bind; [keep|]. intros r. apply stable_bind; [|keep].
  destruct (negb _); [|keep]. apply stable_bind; [apply files_first_alias|]. keep.
Qed.

Lemma files_authenticate_select (url region : string) (batch all_accounts : bool)
  (account : option string) (domain : string) (role : option string) (username : string)
  (password : option string) :
  stable files
    (authenticate_select E url region batch all_accounts account domain role username password).
Proof.
  unfold authenticate_select. destruct (negb _); [keep|]. destruct (_ && _)%bool; [keep|].
  apply stable_bind; [apply files_ntlm_authenticate|]. intros [creds saml_response].
  apply stable_bind; [unfold extract_roles; keep|]. intros roles.
  apply stable_bind; [apply files_select_account|]. intros [account' account_arn].
  unfold select_role, compile. keep.
Qed.

End Kept.

(** *** Classes of events *)

Lemma emit_unseen (E : Env) (seen : event -> bool) (ev : event) :
  seen ev = false -> stable (events seen) (emit E ev).
Proof. intros H w. unfold events. cbn [emit snd trace List.filter]. rewrite H. reflexivity. Qed.

Ltac unseen Hs :=
  intros;
  repeat first
    [ apply stable_bind; [|intros ?]
    | match goal with
      | |- stable _ (match ?x with _ => _ end) => destruct x
      end
    | apply emit_unseen; solve [reflexivity | apply Hs; reflexivity]
    | solve [intros ?; reflexivity] ].

Section Unseen.

Context (E : Env) (seen : event -> bool).

(** The class holds no remote call and no message on stderr. *)
Hypothesis Hs : forall ev, (is_remote ev || is_stderr ev)%bool = true -> seen ev = false.

Lemma unseen_die {A} (message : string) : stable (events seen) (@die E A message).
Proof. intros w. unfold die. cbn [snd]. apply emit_unseen. apply Hs. reflexivity. Qed.

Lemma unseen_get_sts_token (role_arn principal_arn assertion region : string) :
  stable (events seen) (get_sts_token E role_arn principal_arn assertion region).
Proof. unfold get_sts_token, warn. unseen Hs. Qed.

Lemma unseen_get_account_alias (token : Token) :
  stable (events seen) (get_account_alias E token).
Proof. unfold get_account_alias, warn. unseen Hs. Qed.

Lemma unseen_get_account_name (account_arn saml_response role_arn region : string) :
  stable (events seen) (get_account_name E account_arn saml_response role_arn region).
Proof.
  unfold get_account_name. apply stable_bind; [unseen Hs|]. intros w0.
  apply stable_bind; [|unseen Hs].
  destruct (name_map w0 !! account_arn); [unseen Hs|].
  apply stable_bind; [apply unseen_get_sts_token|]. intros [token|]; [|unseen Hs].
  apply stable_bind; [apply unseen_get_account_alias|]. unseen Hs.
Qed.

Lemma unseen_first_alias (r : regex E) (saml_response region : string)
  (roles : list binding) :
  stable (events seen) (first_alias E r saml_response region roles).
Proof.
  induction roles as [|[p0 r0] roles IH]; cbn [first_alias]; [unseen Hs|].
  apply stable_bind; [apply unseen_get_account_name|]. intros name.
  destruct (re_search E r name); [unseen Hs|exact IH].
Qed.

(** In batch mode, or when the class holds no prompt. *)
Lemma unseen_ntlm_authenticate (url domain username : string) (password : option string)
  (batch : bool) :
  (batch = true \/ forall t, seen (EvPrompt t) = false) ->
  stable (events seen) (ntlm_authenticate E url domain username password batch).
Proof.
  intros Hb. unfold ntlm_authenticate.
  destruct (negb _); [apply unseen_die|]. destruct (negb _); [apply unseen_die|].
  apply stable_bind.
  { destruct (PyStr.truthy (Some username)); [unseen Hs|].
    apply stable_bind.
    - destruct batch; [unseen Hs|]. destruct Hb as [Hb|Hb]; [discriminate|].
      apply stable_bind; [apply emit_unseen, Hb|]. unseen Hs.
    - intros typed. destruct (PyStr.truthy (Some typed)); [unseen Hs|apply unseen_die]. }
  intros username'. apply stable_bind.
  { destruct (PyStr.truthy password); [unseen Hs|].
    apply stable_bind.
    - destruct batch; [unseen Hs|]. destruct Hb as [Hb|Hb]; [discriminate|].
      apply stable_bind; [apply emit_unseen, Hb|]. unseen Hs.
    - intros typed. destruct (PyStr.truthy typed); [unseen Hs|apply unseen_die]. }
  intros password'. apply stable_bind; [apply emit_unseen, Hs; reflexivity|]. intros _.
  destruct (last_value _) as [[|c r]|]; try apply unseen_die. unseen Hs.
Qed.

End Unseen.

(** ** The writer and the lock *)

Lemma writes_once_bind {A} (filename : string) (m : M A) (k : A -> M unit) :
  stable store_view m -> (forall a, writes_once filename (k a)) ->
  writes_once filename (bind m k).
Proof.
  intros Hm Hk w. unfold bind. specialize (Hm w).
  destruct (m w) as [[a| msg | e |] w1]; cbn [snd] in Hm.
  - injection Hm as Ht Hf.
    destruct (Hk a w1) as [(Hok & Htr & c & Hfc)|(Hno & Hsame)].
    + left. split; [exact Hok|]. rewrite Htr, Hfc, Ht, Hf.
      split; [reflexivity|]. exists c. reflexivity.
    + right. split; [exact Hno|]. rewrite Hsame. unfold store_view. rewrite Ht, Hf.
      reflexivity.
  - right. split; [discriminate|exact Hm].
  - right. split; [discriminate|exact Hm].
  - right. split; [discriminate|exact Hm].
Qed.

Lemma writes_once_body (E : Env) (filename profile : string) (token : Token) :
  writes_once filename
    (let* credentials := load_credentials filename true in
     let* credentials :=
       (if has_section credentials profile then ret credentials
        else mutate_credentials (add_section credentials profile)) in
     let* credentials :=
       mutate_credentials (set credentials profile "aws_access_key_id" (AccessKeyId token)) in
     let* credentials :=
       mutate_credentials (set credentials profile "aws_secret_access_key" (SecretAccessKey token)) in
     let* credentials :=
       mutate_credentials (set credentials profile "aws_session_token" (SessionToken token)) in
     let* credentials :=
       mutate_credentials (set credentials profile "aws_security_token" (SessionToken token)) in
     let* t := time_time E in
     let* credentials :=
       mutate_credentials (set credentials profile "last_updated" (utcnow_strftime E t)) in
     write_file E filename credentials).
Proof.
  apply writes_once_bind; [unfold load_credentials; keep|]. intros c0.
  apply writes_once_bind; [unfold mutate_credentials; keep|]. intros c1.
  do 4 (apply writes_once_bind; [unfold mutate_credentials; keep|]; intros ?).
  apply writes_once_bind; [keep|]. intros t.
  apply writes_once_bind; [unfold mutate_credentials; keep|]. intros c6.
  intros w. left. split; [reflexivity|]. split; [reflexivity|]. exists c6. reflexivity.
Qed.

Lemma all_or_nothing_update_creds_file (E : Env) (filename profile : string)
  (token : Token) :
  all_or_nothing (update_creds_file E filename profile token).
Proof.
  intros w. unfold update_creds_file, interprocess_locked. cbn [fst snd emit files].
  match goal with
  | |- context [fst (?body ?w1)] =>
      destruct (writes_once_body E filename profile token w1) as [(Hok & _)|(_ & Hsame)]
  end.
  - left. exact Hok.
  - right. injection Hsame as _ Hf. rewrite Hf. reflexivity.
Qed.

Lemma update_creds_file_store_events (E : Env) (filename profile : string) (token : Token)
  (w : world) :
  let r := update_creds_file E filename profile token w in
  (fst r = Ok tt
   /\ trace (snd r)
      = EvUnlock (LOCK_FILE E) :: EvWriteFile filename :: EvLock (LOCK_FILE E) :: trace w
   /\ forall other, other <> filename -> files (snd r) !! other = files w !! other)
  \/ (fst r <> Ok tt
      /\ trace (snd r) = EvUnlock (LOCK_FILE E) :: EvLock (LOCK_FILE E) :: trace w
      /\ files (snd r) = files w).
Proof.
  cbv zeta. unfold update_creds_file, interprocess_locked.
  remember (snd (emit E (EvLock (LOCK_FILE E)) w)) as w1 eqn:Hw1.
  assert (Htr1 : trace w1 = EvLock (LOCK_FILE E) :: trace w) by (rewrite Hw1; reflexivity).
  assert (Hf1 : files w1 = files w) by (rewrite Hw1; reflexivity).
  clear Hw1.
  match goal with
  | |- context [fst (?body w1)] =>
      pose proof (writes_once_body E filename profile token w1) as H;
      remember (body w1) as rw eqn:Hrw; clear Hrw
  end.
  cbn [fst snd emit trace files].
  destruct H as [(Hok & Htr & c & Hf)|(Hno & Hsame)].
  - left. split; [exact Hok|]. rewrite Htr, Htr1. split; [reflexivity|].
    intros other Hother. rewrite Hf, Hf1. apply lookup_insert_ne. congruence.
  - injection Hsame as Htr Hf. right. split; [exact Hno|].
    rewrite Htr, Hf, Htr1, Hf1. split; reflexivity.
Qed.

(** X11: [update_creds_file] touches the store under the lock only.
    However the call ends, the lock is the first thing it has taken and
    the last it has released, and between the two it has attempted at
    most one write, of the file it was given.  Without that attempt
    every file is as it was; with it every file but the one given is as
    it was.  A call that ends normally has made the attempt. *)
Theorem update_creds_file_under_lock (E : Env) (filename profile : string) (token : Token)
  (w : world) :
  let r := update_creds_file E filename profile token w in
  ((trace (snd r) = EvUnlock (LOCK_FILE E) :: EvLock (LOCK_FILE E) :: trace w
    /\ files (snd r) = files w)
   \/ (trace (snd r)
       = EvUnlock (LOCK_FILE E) :: EvWriteFile filename :: EvLock (LOCK_FILE E) :: trace w
       /\ forall other, other <> filename -> files (snd r) !! other = files w !! other))
  /\ (fst r = Ok tt ->
      trace (snd r)
      = EvUnlock (LOCK_FILE E) :: EvWriteFile filename :: EvLock (LOCK_FILE E) :: trace w).
Proof.
  cbv zeta.
  destruct (update_creds_file_store_events E filename profile token w)
    as [(Hok & Htr & Hf)|(Hno & Htr & Hf)].
  - split; [right; split; assumption|]. intros _. exact Htr.
  - split; [left; split; assumption|]. intros Hok. contradiction.
Qed.



(** X13: a profile named DEFAULT cannot be written: on a table that has no
    section of that name, as every table read from a file, the writer
    raises [ValueError] and leaves the files as they were. *)
Theorem update_creds_file_default_profile (E : Env) (filename : string) (token : Token)
  (w : world) :
  sections (read w filename) !! "DEFAULT" = None ->
  fst (update_creds_file E filename "DEFAULT" token w) = Raised ValueError
  /\ files (snd (update_creds_file E filename "DEFAULT" token w)) = files w.
Proof.
  intros Hd.
  assert (Hr : fst (update_creds_file E filename "DEFAULT" token w) = Raised ValueError).
  { unfold update_creds_file, interprocess_locked. cbn [fst].
    unfold load_credentials, mutate_credentials, get_world, lift, bind.
    cbn [orb set_lc_config emit snd fst ret lc_config].
    repeat match goal with
           | |- context [read ?x filename] =>
               lazymatch x with
               | w => fail
               | _ => change (read x filename) with (read w filename)
               end
           end.
    unfold has_section. rewrite Hd. reflexivity. }
  split; [exact Hr|].
  destruct (all_or_nothing_update_creds_file E filename "DEFAULT" token w) as [Hok|Hf].
  - rewrite Hr in Hok. discriminate.
  - exact Hf.
Qed.

Lemma update_creds_file_default_profile_witness :
  fst (update_creds_file Scenario.env1 "/tmp/creds" "DEFAULT" (Scenario.token_for Scenario.R1)
         Scenario.world12) = Raised ValueError
  /\ files (snd (update_creds_file Scenario.env1 "/tmp/creds" "DEFAULT"
                   (Scenario.token_for Scenario.R1) Scenario.world12))
     = files Scenario.world12.
Proof.
  apply (update_creds_file_default_profile Scenario.env1 "/tmp/creds"
           (Scenario.token_for Scenario.R1) Scenario.world12).
  vm_compute. reflexivity.
Defined.

(** ** The workers *)

Lemma stable_subclass {A} (p q : event -> bool) (m : M A) :
  (forall ev, q ev = true -> p ev = true) ->
  stable (events p) m -> stable (events q) m.
Proof.
  intros Hqp Hm w.
  assert (Hsub : forall l, List.filter q l = List.filter q (List.filter p l)).
  { induction l as [|ev l IH]; [reflexivity|]. cbn [List.filter].
    destruct (q ev) eqn:Hq.
    - rewrite (Hqp ev Hq). cbn [List.filter]. rewrite Hq, <- IH. reflexivity.
    - destruct (p ev); cbn [List.filter]; rewrite ?Hq; exact IH. }
  unfold events in *. rewrite Hsub, Hm, <- Hsub. reflexivity.
Qed.

Lemma foreground_update_creds_file (E : Env) (filename profile : string) (token : Token) :
  stable (events is_foreground) (update_creds_file E filename profile token).
Proof.
  unfold update_creds_file. apply stable_locked; [keep|keep|].
  unfold load_credentials, mutate_credentials, write_file. keep.
Qed.

Lemma foreground_authenticate_account_role (E : Env)
  (filename profile_format principal_arn : string) (role_arn : option string)
  (creds : saml_creds) (region : string) :
  stable (events is_foreground)
    (authenticate_account_role E filename profile_format principal_arn role_arn creds region).
Proof.
  assert (Hs : forall ev, (is_remote ev || is_stderr ev)%bool = true -> is_foreground ev = false)
    by (intros []; try reflexivity; discriminate).
  unfold authenticate_account_role. destruct role_arn as [role_arn|]; [|apply unseen_die, Hs].
  apply stable_bind.
  { destruct creds as [[[url domain] username] password].
    apply unseen_ntlm_authenticate; [exact Hs|left; reflexivity]. }
  intros [_ saml_response]. apply stable_bind; [apply unseen_get_sts_token, Hs|].
  intros [token|]; [|apply unseen_die, Hs].
  apply stable_bind; [apply unseen_get_account_name, Hs|]. intros account_name.
  apply stable_bind; [keep|]. intros role_name.
  apply stable_bind; [keep|]. intros _.
  apply foreground_update_creds_file.
Qed.

(** X14: a worker stays in the background: whatever it is given and
    however it ends, it asks nothing of the terminal, starts no process
    and does not sleep. *)
Theorem worker_stays_in_background (E : Env) (filename profile_format principal_arn : string)
  (role_arn : option string) (creds : saml_creds) (region : string) (w : world) :
  let r := authenticate_account_role E filename profile_format principal_arn role_arn creds
             region w in
  events is_prompt (snd r) = events is_prompt w
  /\ events is_spawn (snd r) = events is_spawn w
  /\ events is_sleep (snd r) = events is_sleep w.
Proof.
  cbv zeta.
  pose proof (foreground_authenticate_account_role E filename profile_format principal_arn
                role_arn creds region) as H.
  repeat split.
  - apply (stable_subclass is_foreground is_prompt); [|exact H].
    intros []; try discriminate; reflexivity.
  - apply (stable_subclass is_foreground is_spawn); [|exact H].
    intros []; try discriminate; reflexivity.
  - apply (stable_subclass is_foreground is_sleep); [|exact H].
    intros []; try discriminate; reflexivity.
Qed.

Lemma stable_pair {X Y A} (f : world -> X) (g : world -> Y) (m : M A) :
  stable f m -> stable g m -> stable (fun w => (f w, g w)) m.
Proof. intros Hf Hg w. rewrite Hf, Hg. reflexivity. Qed.

Lemma writes_unless_dead_bind {A} (filename : string) (m : M A) (k : A -> M unit) :
  stable write_view m -> (forall a, writes_unless_dead filename (k a)) ->
  writes_unless_dead filename (bind m k).
Proof.
  intros Hm Hk w. unfold bind. specialize (Hm w).
  destruct (m w) as [[a| msg | e |] w1]; cbn [snd fst] in *; try (left; exact Hm).
  injection Hm as Hev Hf.
  destruct (Hk a w1) as [Hsame|(Hnd & Hw & Ho)].
  - left. rewrite Hsame. unfold write_view. rewrite Hev, Hf. reflexivity.
  - right. split; [exact Hnd|]. rewrite Hw, Hev. split; [reflexivity|].
    intros other Hother. rewrite (Ho other Hother), Hf. reflexivity.
Qed.

Lemma writes_unless_dead_die (E : Env) (filename message : string) :
  writes_unless_dead filename (@die E unit message).
Proof. intros w. left. reflexivity. Qed.

Lemma writes_unless_dead_update_creds_file (E : Env) (filename profile : string)
  (token : Token) :
  writes_unless_dead filename (update_creds_file E filename profile token).
Proof.
  intros w.
  destruct (update_creds_file_store_events E filename profile token w)
    as [(Hok & Htr & Hf)|(Hno & Htr & Hf)].
  - right. split; [intros msg Hd; rewrite Hok in Hd; discriminate|].
    unfold events. rewrite Htr. split; [reflexivity|exact Hf].
  - left. unfold write_view, events. rewrite Htr, Hf. reflexivity.
Qed.

Lemma writes_unless_dead_authenticate_account_role (E : Env)
  (filename profile_format principal_arn : string) (role_arn : option string)
  (creds : saml_creds) (region : string) :
  writes_unless_dead filename
    (authenticate_account_role E filename profile_format principal_arn role_arn creds region).
Proof.
  assert (Hs : forall ev, (is_remote ev || is_stderr ev)%bool = true -> is_write ev = false)
    by (intros []; try reflexivity; discriminate).
  unfold authenticate_account_role.
  destruct role_arn as [role_arn|]; [|apply writes_unless_dead_die].
  apply writes_unless_dead_bind.
  { destruct creds as [[[url domain] username] password].
    apply stable_pair; [|apply files_ntlm_authenticate].
    apply unseen_ntlm_authenticate; [exact Hs|left; reflexivity]. }
  intros [_ saml_response]. apply writes_unless_dead_bind.
  { apply stable_pair; [apply unseen_get_sts_token, Hs|apply files_get_sts_token]. }
  intros [token|]; [|apply writes_unless_dead_die].
  apply writes_unless_dead_bind.
  { apply stable_pair; [apply unseen_get_account_name, Hs|apply files_get_account_name]. }
  intros account_name.
  apply writes_unless_dead_bind; [keep|]. intros role_name.
  apply writes_unless_dead_bind; [keep|]. intros _.
  apply writes_unless_dead_update_creds_file.
Qed.

(** X15: a worker changes the store only through the one write at its
    end.  However it ends, it has either attempted no write and left
    every file as it was, or attempted one write, of the file it was
    given, and left every other file as it was; and a worker that dies
    (an incomplete or failed negotiation, a refused exchange, a missing
    role) has attempted no write. *)
Theorem worker_writes_at_its_end (E : Env) (filename profile_format principal_arn : string)
  (role_arn : option string) (creds : saml_creds) (region : string) (w : world) :
  let r := authenticate_account_role E filename profile_format principal_arn role_arn creds
             region w in
  (write_view (snd r) = write_view w
   \/ (events is_write (snd r) = EvWriteFile filename :: events is_write w
       /\ forall other, other <> filename -> files (snd r) !! other = files w !! other))
  /\ forall msg, fst r = Died msg -> write_view (snd r) = write_view w.
Proof.
  cbv zeta.
  destruct (writes_unless_dead_authenticate_account_role E filename profile_format principal_arn
              role_arn creds region w) as [Hsame|(Hnd & Hw & Ho)].
  - split; [left; exact Hsame|]. intros _ _. exact Hsame.
  - split; [right; split; assumption|]. intros msg Hd. destruct (Hnd msg Hd).
Qed.

(** A worker whose exchange is refused dies, having attempted no write;
    one whose exchange succeeds attempts the write of its file. *)
Example worker_write_attempts :
  let worker E := authenticate_account_role E "/tmp/creds" "%a:%r" Scenario.P1
                    (Some Scenario.R1) Scenario.creds1 "us-east-1" Scenario.world12 in
  (exists msg, fst (worker Scenario.env_refused) = Died msg)
  /\ write_view (snd (worker Scenario.env_refused)) = write_view Scenario.world12
  /\ fst (worker Scenario.env1) = Ok tt
  /\ events is_write (snd (worker Scenario.env1)) = [EvWriteFile "/tmp/creds"].
Proof.
  cbv zeta. split; [eexists; vm_compute; reflexivity|].
  repeat split; vm_compute; reflexivity.
Qed.

Lemma start_process_local (E : Env) (filename profile : string) (creds : saml_creds)
  (region : string) (b : binding) (w : world) :
  let r := start_process E filename profile creds region b w in
  fst r = Ok tt
  /\ name_map (snd r) = name_map w
  /\ lc_config (snd r) = lc_config w
  /\ events is_spawn (snd r) = EvSpawn (fst b) (snd b) :: events is_spawn w.
Proof.
  cbv zeta. unfold start_process. cbn [fst snd restore_local name_map lc_config].
  repeat split.
  assert (Hsub : forall ev, is_spawn ev = true -> is_foreground ev = true)
    by (intros []; try discriminate; reflexivity).
  pose proof (stable_subclass _ _ _ Hsub
                (foreground_authenticate_account_role E filename profile (fst b) (Some (snd b)) creds
                   region)
                (snd (emit E (EvSpawn (fst b) (snd b)) w))) as H.
  unfold events in *. cbn [restore_local trace]. rewrite H. reflexivity.
Qed.

Lemma fan_out_spawns (E : Env) (filename profile : string) (creds : saml_creds)
  (region : string) (roles : list binding) (w : world) :
  let r := for_each (start_process E filename profile creds region) roles w in
  fst r = Ok tt
  /\ events is_spawn (snd r)
     = rev (map (fun b => EvSpawn (fst b) (snd b)) roles) ++ events is_spawn w.
Proof.
  cbv zeta. revert w. induction roles as [|b roles IH]; intros w.
  - repeat split.
  - cbn [for_each]. unfold bind.
    destruct (start_process_local E filename profile creds region b w) as (Hok & _ & _ & Hsp).
    cbv zeta in *.
    destruct (start_process E filename profile creds region b w) as [r1 w1].
    cbn [fst snd] in *. subst r1.
    destruct (IH w1) as (Hok' & Hsp').
    split; [exact Hok'|]. rewrite Hsp', Hsp.
    cbn [map rev]. rewrite <- app_assoc. reflexivity.
Qed.

(** X16: one pass starts a worker for every binding, in order, whether
    the workers before it have died or not; and nothing a worker does
    to its map of account names or to its parser reaches the parent. *)
Theorem fan_out_starts_every_binding (E : Env) (filename profile : string)
  (creds : saml_creds) (region : string) (roles : list binding) (w : world) :
  let r := for_each (start_process E filename profile creds region) roles w in
  fst r = Ok tt
  /\ events is_spawn (snd r)
     = rev (map (fun b => EvSpawn (fst b) (snd b)) roles) ++ events is_spawn w
  /\ name_map (snd r) = name_map w
  /\ lc_config (snd r) = lc_config w.
Proof.
  cbv zeta.
  destruct (fan_out_spawns E filename profile creds region roles w) as [Hok Hsp].
  cbv zeta in *. split; [exact Hok|]. split; [exact Hsp|]. clear Hok Hsp.
  revert w. induction roles as [|b roles IH]; intros w; [split; reflexivity|].
  cbn [for_each]. unfold bind.
  destruct (start_process_local E filename profile creds region b w) as (Hok & Hn & Hc & _).
  cbv zeta in *.
  destruct (start_process E filename profile creds region b w) as [r1 w1].
  cbn [fst snd] in *. subst r1.
  destruct (IH w1) as (Hn' & Hc'). rewrite Hn', Hn, Hc', Hc. split; reflexivity.
Qed.

(** ** One-shot and continuous mode *)

Lemma stable_for_each {X A} (obs : world -> X) (f : A -> M unit) (l : list A) :
  (forall x, stable obs (f x)) -> stable obs (for_each f l).
Proof.
  intros Hf. induction l as [|x l IH]; cbn [for_each]; [keep|].
  apply stable_bind; [apply Hf|]. intros _. exact IH.
Qed.

Lemma blocking_start_process (E : Env) (filename profile : string) (creds : saml_creds)
  (region : string) (b : binding) :
  stable (events is_blocking) (start_process E filename profile creds region b).
Proof.
  intros w. unfold start_process. cbn [snd].
  assert (Hsub : forall ev, is_blocking ev = true -> is_foreground ev = true)
    by (intros []; try discriminate; reflexivity).
  pose proof (stable_subclass _ _ _ Hsub
                (foreground_authenticate_account_role E filename profile (fst b) (Some (snd b)) creds
                   region)
                (snd (emit E (EvSpawn (fst b) (snd b)) w))) as H.
  unfold events in *. cbn [restore_local trace]. rewrite H. reflexivity.
Qed.

Lemma join_ok (E : Env) {A} (roles : list A) (w : world) :
  fst (for_each (fun _ => emit E EvJoin) roles w) = Ok tt.
Proof.
  revert w. induction roles as [|b roles IH]; intros w; [reflexivity|].
  cbn [for_each]. unfold bind. cbn [emit]. apply IH.
Qed.

(** X17: in one-shot mode [authenticate] makes one pass and returns: every
    binding gets its worker, and the parent neither sleeps nor asks
    anything of the terminal, whatever becomes of the workers. *)
Theorem one_shot_single_pass (E : Env) (fuel : nat) (filename profile : string)
  (creds : saml_creds) (region : string) (roles : list binding) (w : world) :
  let r := refresh_loop E (S fuel) filename profile creds region roles false w in
  fst r = Ok tt
  /\ events is_spawn (snd r)
     = rev (map (fun b => EvSpawn (fst b) (snd b)) roles) ++ events is_spawn w
  /\ events is_blocking (snd r) = events is_blocking w.
Proof.
  cbv zeta.
  destruct (fan_out_spawns E filename profile creds region roles (snd (time_time E w)))
    as (Hok & Hsp).
  pose proof (stable_for_each (events is_blocking) _ roles
                (blocking_start_process E filename profile creds region)
                (snd (time_time E w))) as Hbl.
  cbv zeta in *.
  destruct (for_each (start_process E filename profile creds region) roles
              (snd (time_time E w))) as [r1 w1] eqn:Hfan.
  cbn [fst snd] in *. subst r1.
  pose proof (join_ok E roles w1) as Hj.
  pose proof (stable_for_each (events is_spawn) (fun _ : binding => emit E EvJoin) roles
                (fun _ => emit_unseen E is_spawn EvJoin eq_refl) w1) as Hjs.
  pose proof (stable_for_each (events is_blocking) (fun _ : binding => emit E EvJoin) roles
                (fun _ => emit_unseen E is_blocking EvJoin eq_refl) w1) as Hjb.
  destruct (for_each (fun _ : binding => emit E EvJoin) roles w1) as [r2 w2] eqn:Hjoin.
  cbn [fst snd] in *. subst r2.
  assert (Hrun : refresh_loop E (S fuel) filename profile creds region roles false w
                 = (Ok tt, w2)).
  { cbn [refresh_loop]. unfold refresh_pass. unfold bind at 1. unfold bind at 1.
    change (time_time E w) with (Ok (now w), snd (time_time E w)). cbv iota.
    unfold bind. rewrite Hfan, Hjoin. reflexivity. }
  rewrite Hrun. cbn [fst snd]. rewrite Hjs, Hjb, Hsp, Hbl. repeat split.
Qed.

Lemma wait_refresh_step (E : Env) (next_update : Z) (fuel : nat) (w : world) :
  wait_refresh E (S fuel) next_update w
  = if Z.ltb (now w) next_update
    then wait_refresh E fuel next_update
           (snd (time_sleep E 60
                   (snd (print E (PyStr.str_of_int
                                    ((next_update - now (snd (time_time E w))) / 60)
                                  +:+ " minutes till credential refresh" +:+ carriage_return)
                           "" (snd (time_time E (snd (time_time E w))))))))
    else (Ok tt, snd (time_time E w)).
Proof.
  cbn [wait_refresh]. unfold bind, time_time.
  destruct (Z.ltb (now w) next_update); reflexivity.
Qed.

Lemma wait_refresh_outcome (E : Env) (next_update : Z) (fuel : nat) (w : world) :
  fst (wait_refresh E fuel next_update w) = Ok tt
  \/ fst (wait_refresh E fuel next_update w) = Pending.
Proof.
  revert w. induction fuel as [|fuel IH]; intros w; [right; reflexivity|].
  rewrite wait_refresh_step.
  destruct (Z.ltb (now w) next_update); [apply IH|left; reflexivity].
Qed.

(** X18: in continuous mode the loop of [authenticate] has no way out: it
    never returns, never dies and raises nothing, whatever becomes of
    the workers. *)
Theorem continuous_never_returns (E : Env) (fuel : nat) (filename profile : string)
  (creds : saml_creds) (region : string) (roles : list binding) (w : world) :
  fst (refresh_loop E fuel filename profile creds region roles true w) = Pending.
Proof.
  revert w. induction fuel as [|fuel IH]; intros w; [reflexivity|].
  pose proof (fan_out_spawns E filename profile creds region roles (snd (time_time E w)))
    as (Hok & _).
  cbv zeta in Hok.
  destruct (for_each (start_process E filename profile creds region) roles
              (snd (time_time E w))) as [r1 w1] eqn:Hfan.
  cbn [fst] in Hok. subst r1.
  pose proof (join_ok E roles w1) as Hj.
  destruct (for_each (fun _ : binding => emit E EvJoin) roles w1) as [r2 w2] eqn:Hjoin.
  cbn [fst] in Hj. subst r2.
  pose proof (wait_refresh_outcome E (now (snd (time_time E w2)) + 59 * 60) (S fuel)
                (snd (time_time E (snd (time_time E w2))))) as Hw.
  destruct (wait_refresh E (S fuel) (now (snd (time_time E w2)) + 59 * 60)
              (snd (time_time E (snd (time_time E w2))))) as [r3 w3] eqn:Hwait.
  cbn [fst] in Hw.
  cbn [refresh_loop]. unfold refresh_pass. unfold bind at 1. unfold bind at 1.
  change (time_time E w) with (Ok (now w), snd (time_time E w)). cbv iota.
  unfold bind at 1. rewrite Hfan.
  unfold bind at 1. rewrite Hjoin.
  unfold bind at 1.
  change (time_time E w2) with (Ok (now w2), snd (time_time E w2)). cbv iota.
  unfold bind at 1.
  change (time_time E (snd (time_time E w2)))
    with (Ok (now (snd (time_time E w2))), snd (time_time E (snd (time_time E w2)))).
  cbv iota. unfold bind at 1. rewrite Hwait.
  destruct Hw as [-> | ->]; [apply IH|reflexivity].
Qed.

(** ** The memory of get_account_name *)

Lemma get_account_name_known (E : Env) (account_arn saml_response role_arn region name : string)
  (w : world) :
  name_map w !! account_arn = Some name ->
  get_account_name E account_arn saml_response role_arn region w = (Ok name, w).
Proof.
  intros H. unfold get_account_name, get_world, bind. rewrite H. cbn. rewrite H. reflexivity.
Qed.

(** X5: the first successful resolution of an account name is remembered:
    it puts the alias in the map, and every later call for the same
    principal in the process returns it with no exchange, no listing
    and no other effect. *)
Theorem get_account_name_memo (E : Env) (account_arn saml_response role_arn region : string)
  (token : Token) (alias : string) (others : list string) (w : world) :
  name_map w !! account_arn = None ->
  assume_role_with_saml E (sts_calls w) role_arn account_arn saml_response region
  = StsToken token ->
  list_account_aliases E token = AliasList (alias :: others) ->
  exists w',
    get_account_name E account_arn saml_response role_arn region w = (Ok alias, w')
    /\ name_map w' = <[account_arn := alias]> (name_map w)
    /\ forall saml_response' role_arn' region',
         get_account_name E account_arn saml_response' role_arn' region' w' = (Ok alias, w').
Proof.
  intros Hmap Hsts Hal.
  assert (Hrun : exists w',
             get_account_name E account_arn saml_response role_arn region w = (Ok alias, w')
             /\ name_map w' = <[account_arn := alias]> (name_map w)).
  { unfold get_account_name, get_sts_token, count_sts_call, get_account_alias, get_world, bind.
    rewrite Hmap. cbn [emit]. rewrite Hsts. cbn [ret emit]. rewrite Hal. cbn.
    rewrite lookup_insert_eq. eexists. split; reflexivity. }
  destruct Hrun as (w' & Hrun & Hm). exists w'. split; [exact Hrun|]. split; [exact Hm|].
  intros saml_response' role_arn' region'. apply get_account_name_known.
  rewrite Hm. apply lookup_insert_eq.
Qed.

Lemma get_account_name_memo_witness :
  exists w',
    get_account_name Scenario.env1 Scenario.P1 "PHNhbWw+" Scenario.R1 "us-east-1" world0
    = (Ok "prod", w')
    /\ name_map w' = <[Scenario.P1 := "prod"]> (name_map world0)
    /\ forall saml_response' role_arn' region',
         get_account_name Scenario.env1 Scenario.P1 saml_response' role_arn' region' w'
         = (Ok "prod", w').
Proof.
  apply (get_account_name_memo Scenario.env1 Scenario.P1 "PHNhbWw+" Scenario.R1 "us-east-1"
           (Scenario.token_for Scenario.R1) "prod" [] world0); reflexivity.
Defined.

(** ** The selection *)

(** X2: when the pattern of the account selector is found in a principal
    identifier, the account is settled by that first pass alone: no
    token is exchanged, no alias is listed, the world is as before. *)
Theorem account_found_without_exchange (E : Env) (account saml_response region : string)
  (roles : list binding) (r : regex E) (b0 : binding) (w : world) :
  PyStr.truthy (Some account) = true ->
  re_compile E (account_pattern account) = Some r ->
  find (fun b : string * string => re_search E r (fst b)) roles = Some b0 ->
  fst b0 <> "" ->
  select_account E (Some account) saml_response region roles w
  = (Ok (Some (account_pattern account), Some (fst b0)), w).
Proof.
  intros Ht Hc Hfind Hne. unfold select_account. rewrite Ht.
  unfold compile. rewrite Hc, bind_ret. unfold first_principal. rewrite Hfind.
  cbn [fmap option_fmap option_map].
  destruct (fst b0) as [|c p]; [congruence|]. reflexivity.
Qed.

Lemma account_found_without_exchange_witness :
  select_account Scenario.env1 (Some "123456789012") "PHNhbWw+" "us-east-1"
    [(Scenario.P1, Scenario.R1)] world0
  = (Ok (Some (account_pattern "123456789012"), Some (fst (Scenario.P1, Scenario.R1))), world0).
Proof.
  apply (account_found_without_exchange Scenario.env1 "123456789012" "PHNhbWw+" "us-east-1"
           [(Scenario.P1, Scenario.R1)] "arn:aws:iam::123456789012" (Scenario.P1, Scenario.R1)
           world0).
  - reflexivity.
  - reflexivity.
  - reflexivity.
  - discriminate.
Defined.

Lemma select_role_ok (E : Env) (role account_arn : option string) (roles rs : list binding)
  (w w' : world) :
  select_role E role account_arn roles w = (Ok rs, w') ->
  w' = w
  /\ (forall b, b ∈ rs -> b ∈ roles)
  /\ (roles <> [] -> rs <> [])
  /\ (forall text, role = Some text -> PyStr.startswith "arn:" text = true ->
                   forall b, b ∈ rs -> snd b = text).
Proof.
  unfold select_role. destruct role as [[|c r]|].
  - intros [= <- <-]. repeat split; auto; intros text [= <-]; discriminate.
  - destruct (PyStr.startswith "arn:" (String c r)) eqn:Harn.
    + rewrite bind_ret.
      destruct (filter (fun b : string * string => snd b = String c r) roles) as [|b l] eqn:Hf;
        [discriminate|].
      intros [= <- <-]. split; [reflexivity|]. rewrite <- Hf. repeat split.
      * intros b0 Hb0. apply list_elem_of_filter in Hb0. apply Hb0.
      * intros _. rewrite Hf. discriminate.
      * intros text [= <-] _ b0 Hb0. apply list_elem_of_filter in Hb0. apply Hb0.
    + unfold compile. destruct (re_compile E (String c r)) as [rx|]; [|discriminate].
      rewrite !bind_ret.
      destruct (filter _ roles) as [|b l] eqn:Hf; [discriminate|].
      intros [= <- <-]. split; [reflexivity|]. rewrite <- Hf. repeat split.
      * intros b0 Hb0. apply list_elem_of_filter in Hb0. apply Hb0.
      * intros _. rewrite Hf. discriminate.
      * intros text [= <-] Harn'. rewrite Harn' in Harn. discriminate.
  - intros [= <- <-]. repeat split; auto; discriminate.
Qed.

(** X3: what a successful selection hands to the loop: the credentials of
    the negotiation and a set of bindings without duplicates, each one
    granted by the assertion, not empty unless the assertion grants
    nothing; with a role selector that begins with [arn:], only
    bindings of exactly that role. *)
Theorem authenticate_select_sound (E : Env) (url region : string) (batch all_accounts : bool)
  (account : option string) (domain : string) (role : option string) (username : string)
  (password : option string) (w w' : world) (creds : saml_creds) (selected : list binding) :
  authenticate_select E url region batch all_accounts account domain role username password w
  = (Ok (creds, selected), w') ->
  NoDup selected
  /\ exists saml_response w1 roles w2,
       ntlm_authenticate E url domain username password batch w
       = (Ok (creds, saml_response), w1)
       /\ extract_roles E saml_response w1 = (Ok roles, w2)
       /\ (forall b, b ∈ selected -> b ∈ roles)
       /\ (roles <> [] -> selected <> [])
       /\ (forall text, role = Some text -> PyStr.startswith "arn:" text = true ->
                        forall b, b ∈ selected -> snd b = text).
Proof.
  intros H. unfold authenticate_select in H.
  destruct (negb _) in H; [discriminate|]. destruct (_ && _)%bool in H; [discriminate|].
  unfold bind at 1 in H.
  destruct (ntlm_authenticate E url domain username password batch w)
    as [[[creds0 saml_response]| | |] w1] eqn:Hntlm; try discriminate.
  unfold bind at 1 in H.
  destruct (extract_roles E saml_response w1) as [[roles| | |] w2] eqn:Hx; try discriminate.
  unfold bind at 1 in H.
  destruct (select_account E account saml_response region roles w2)
    as [[[account' account_arn]| | |] w3] eqn:Hsel; try discriminate.
  assert (Htail : forall kept : list binding,
             (forall b, b ∈ kept -> b ∈ roles) -> (roles <> [] -> kept <> []) ->
             bind (select_role E role account_arn kept)
               (fun roles0 => ret (creds0, remove_dups roles0)) w3
             = (Ok (creds, selected), w') ->
             NoDup selected
             /\ exists saml_response0 w4 roles0 w5,
                  (Ok (creds0, saml_response), w1) = (Ok (creds, saml_response0), w4)
                  /\ extract_roles E saml_response0 w4 = (Ok roles0, w5)
                  /\ (forall b, b ∈ selected -> b ∈ roles0)
                  /\ (roles0 <> [] -> selected <> [])
                  /\ (forall text, role = Some text -> PyStr.startswith "arn:" text = true ->
                                   forall b, b ∈ selected -> snd b = text)).
  { intros kept Hsub Hne. unfold bind.
    destruct (select_role E role account_arn kept w3) as [[rs| | |] w4] eqn:Hrole;
      try discriminate.
    intros [= <- <- <-].
    destruct (select_role_ok E _ _ _ _ _ _ Hrole) as (_ & Hrs & Hrne & Harn).
    split; [apply NoDup_remove_dups|].
    exists saml_response, w1, roles, w2.
    split; [reflexivity|]. split; [exact Hx|]. repeat split.
    - intros b Hb. rewrite elem_of_remove_dups in Hb. apply Hsub, Hrs, Hb.
    - intros Hr Hnil. apply (Hrne (Hne Hr)).
      destruct rs as [|b rs]; [reflexivity|].
      assert (Hb : b ∈ remove_dups (b :: rs)) by (apply elem_of_remove_dups; left).
      rewrite Hnil in Hb. inversion Hb.
    - intros text Hrole' Harn' b Hb. rewrite elem_of_remove_dups in Hb.
      exact (Harn text Hrole' Harn' b Hb). }
  destruct account_arn as [[|c p]|].
  - apply (Htail roles); auto.
  - destruct (select_account_in E _ _ _ _ _ _ _ _ Hsel eq_refl) as [role_arn Hin].
    destruct (filter (fun b : string * string => fst b = String c p) roles) as [|b l] eqn:Hf.
    + exfalso.
      assert (Hb : (String c p, role_arn) ∈ @nil binding); [|inversion Hb].
      rewrite <- Hf. apply list_elem_of_filter. split; [reflexivity|exact Hin].
    + apply (Htail (b :: l)).
      * intros b0 Hb0. rewrite <- Hf in Hb0. apply list_elem_of_filter in Hb0. apply Hb0.
      * discriminate.
      * exact H.
  - apply (Htail roles); auto.
Qed.

Lemma authenticate_select_sound_witness :
  NoDup [(Scenario.P1, Scenario.R1)]
  /\ exists saml_response w1 roles w2,
       ntlm_authenticate Scenario.env1 "https://adfs.example/ls" "CORP" "user" (Some "pw") true
         world0 = (Ok (Scenario.creds1, saml_response), w1)
       /\ extract_roles Scenario.env1 saml_response w1 = (Ok roles, w2)
       /\ (forall b, b ∈ [(Scenario.P1, Scenario.R1)] -> b ∈ roles)
       /\ (roles <> [] -> [(Scenario.P1, Scenario.R1)] <> [])
       /\ (forall text, Some Scenario.R1 = Some text -> PyStr.startswith "arn:" text = true ->
                        forall b, b ∈ [(Scenario.P1, Scenario.R1)] -> snd b = text).
Proof.
  apply (authenticate_select_sound Scenario.env1 "https://adfs.example/ls" "us-east-1" true
           false (Some "123456789012") "CORP" (Some Scenario.R1) "user" (Some "pw") world0
           (snd (Scenario.run_select Scenario.env1 true None None))).
  reflexivity.
Defined.

(** X4: the selection never touches the store: however it ends, the files
    are as they were and no lock was taken and no file written. *)
Theorem authenticate_select_leaves_store (E : Env) (url region : string)
  (batch all_accounts : bool) (account : option string) (domain : string)
  (role : option string) (username : string) (password : option string) (w : world) :
  let r := authenticate_select E url region batch all_accounts account domain role username
             password w in
  files (snd r) = files w /\ events is_store_event (snd r) = events is_store_event w.
Proof.
  cbv zeta. split; [apply files_authenticate_select|].
  assert (Hs : forall ev, (is_remote ev || is_stderr ev)%bool = true -> is_store_event ev = false)
    by (intros []; try reflexivity; discriminate).
  revert w.
  change (stable (events is_store_event)
            (authenticate_select E url region batch all_accounts account domain role username
               password)).
  unfold authenticate_select.
  destruct (negb _); [apply unseen_die, Hs|]. destruct (_ && _)%bool; [apply unseen_die, Hs|].
  apply stable_bind; [apply unseen_ntlm_authenticate; [exact Hs|right; reflexivity]|].
  intros [creds saml_response].
  apply stable_bind; [unfold extract_roles; keep|]. intros roles.
  apply stable_bind.
  { unfold select_account, compile. destruct (PyStr.truthy account); [|keep].
    apply stable_bind; [keep|]. intros r. apply stable_bind; [|keep].
    destruct (negb _); [|keep]. apply stable_bind; [apply unseen_first_alias, Hs|]. keep. }
  intros [account' account_arn].
  assert (Hrole : forall kept, stable (events is_store_event)
                                 (bind (select_role E role account_arn kept)
                                    (fun roles0 => ret (creds, remove_dups roles0)))).
  { intros kept. apply stable_bind; [|keep]. unfold select_role, compile.
    destruct role as [[|c r]|]; [keep| |keep].
    apply stable_bind; [keep|]. intros [|b l]; [apply unseen_die, Hs|keep]. }
  destruct account_arn as [[|c p]|]; try apply Hrole.
  destruct (filter _ roles); [apply unseen_die, Hs|apply Hrole].
Qed.

(** ** Splitting and get_role_name *)

Lemma split_lacking (sep : ascii) (x : string) :
  PyStr.lacks sep x = true -> PyStr.split sep x = [x].
Proof.
  induction x as [|c x IH]; [reflexivity|]. cbn [PyStr.lacks PyStr.split].
  intros H. apply andb_true_iff in H as [Hc Hx]. apply negb_true_iff in Hc.
  rewrite Hc, (IH Hx). reflexivity.
Qed.

Lemma split_app_sep (sep : ascii) (x s : string) :
  PyStr.lacks sep x = true ->
  PyStr.split sep (x +:+ String sep s) = x :: PyStr.split sep s.
Proof.
  induction x as [|c x IH]; intros H.
  - change (EmptyString +:+ String sep s) with (String sep s).
    cbn [PyStr.split]. rewrite Ascii.eqb_refl. reflexivity.
  - cbn [PyStr.lacks] in H. apply andb_true_iff in H as [Hc Hx]. apply negb_true_iff in Hc.
    change (String c x +:+ String sep s) with (String c (x +:+ String sep s)).
    cbn [PyStr.split]. rewrite Hc, (IH Hx). reflexivity.
Qed.

(** Joining pieces that lack the separator and splitting again gives
    the pieces back. *)
Lemma split_join (sep : ascii) (pieces : list string) :
  pieces <> [] -> Forall (fun p => PyStr.lacks sep p = true) pieces ->
  PyStr.split sep (PyStr.join (String sep EmptyString) pieces) = pieces.
Proof.
  intros Hne H. induction H as [|p rest Hp Hrest IH]; [congruence|].
  destruct rest as [|q rest].
  - cbn [PyStr.join]. apply split_lacking, Hp.
  - change (PyStr.join (String sep EmptyString) (p :: q :: rest))
      with (p +:+ String sep (PyStr.join (String sep EmptyString) (q :: rest))).
    rewrite (split_app_sep sep p _ Hp), IH; [reflexivity|discriminate].
Qed.

Lemma length_split (sep : ascii) (s : string) :
  length (PyStr.split sep s) = S (count_char sep s).
Proof.
  induction s as [|c s IH]; [reflexivity|]. cbn [PyStr.split count_char].
  destruct (Ascii.eqb c sep); cbn [length Nat.add]; [rewrite IH; reflexivity|].
  destruct (PyStr.split sep s) as [|p ps]; [discriminate IH|exact IH].
Qed.

Lemma split_pieces_lack (sep : ascii) (s : string) :
  Forall (fun p => PyStr.lacks sep p = true) (PyStr.split sep s).
Proof.
  induction s as [|c s IH]; [repeat constructor|]. cbn [PyStr.split].
  destruct (Ascii.eqb c sep) eqn:Hc; [constructor; [reflexivity|exact IH]|].
  destruct (PyStr.split sep s) as [|p ps]; [repeat constructor; cbn; rewrite Hc; reflexivity|].
  inversion IH as [|? ? Hp Hps]; subst. constructor; [|exact Hps].
  cbn [PyStr.lacks]. rewrite Hc, Hp. reflexivity.
Qed.

Lemma replace_from_absent (old' new s : string) (c0 : ascii) :
  PyStr.contains (String c0 old') s = false ->
  PyStr.replace_from (String c0 old') new 0 s = s.
Proof.
  induction s as [|c s IH]; [reflexivity|].
  cbn [PyStr.contains PyStr.replace_from]. intros H.
  apply orb_false_iff in H as [Hp Hs]. rewrite Hp, (IH Hs). reflexivity.
Qed.

(** X6: for a role identifier of six fields whose last field is [role/]
    followed by a name that does not contain [role/] again,
    [get_role_name] is the name. *)
Theorem get_role_name_of_plain_role (f0 f1 f2 f3 f4 name : string) :
  Forall (fun p => PyStr.lacks ":" p = true) [f0; f1; f2; f3; f4; name] ->
  PyStr.contains "role/" name = false ->
  get_role_name (PyStr.join ":" [f0; f1; f2; f3; f4; "role/" +:+ name]) = Ok name.
Proof.
  intros Hf Hname. unfold get_role_name. rewrite split_join; [|discriminate|].
  - cbn [index lookup list_lookup]. f_equal. cbn [PyStr.replace].
    change ("role/" +:+ name) with (String "r" (String "o" (String "l" (String "e"
                                      (String "/" name))))).
    cbn [PyStr.replace_from String.prefix String.length Nat.pred String.append].
    destruct name as [|c name]; [reflexivity|].
    cbn [String.prefix]. destruct (ascii_dec "r" "r"); [|congruence].
    destruct (ascii_dec "o" "o"); [|congruence]. destruct (ascii_dec "l" "l"); [|congruence].
    destruct (ascii_dec "e" "e"); [|congruence]. destruct (ascii_dec "/" "/"); [|congruence].
    cbn [String.append]. apply replace_from_absent, Hname.
  - repeat (apply Forall_cons in Hf as [? Hf]).
    repeat (apply Forall_cons; split; [first [assumption | cbn; assumption]|]).
    constructor.
Qed.

Lemma get_role_name_of_plain_role_witness :
  get_role_name (PyStr.join ":" ["arn"; "aws"; "iam"; ""; "123456789012"; "role/" +:+ "Admin"])
  = Ok "Admin".
Proof.
  apply (get_role_name_of_plain_role "arn" "aws" "iam" "" "123456789012" "Admin").
  - repeat constructor.
  - reflexivity.
Defined.

(** X7: [get_role_name] raises [IndexError] exactly on the identifiers with
    fewer than five colons; on every other identifier it returns a
    name. *)
Theorem get_role_name_index_error (role_arn : string) :
  (get_role_name role_arn = Raised IndexError <-> (count_char ":" role_arn < 5)%nat)
  /\ ((exists name, get_role_name role_arn = Ok name) <-> (5 <= count_char ":" role_arn)%nat).
Proof.
  pose proof (length_split ":" role_arn) as Hlen. unfold get_role_name, index.
  destruct (PyStr.split ":" role_arn !! 5%nat) as [field|] eqn:Hl.
  - apply lookup_lt_Some in Hl. split; split.
    + discriminate.
    + lia.
    + lia.
    + intros _. eexists. reflexivity.
  - apply lookup_ge_None in Hl. split; split.
    + lia.
    + reflexivity.
    + intros [name H]. discriminate.
    + lia.
Qed.

(** ** What extract_roles accepts *)

Lemma comprehension_inv {A B} (f : A -> result B) (l : list A) (ys : list B) :
  comprehension f l = Ok ys -> Forall2 (fun x y => f x = Ok y) l ys.
Proof.
  revert ys. induction l as [|x l IH]; intros ys; cbn [comprehension].
  - intros [= <-]. constructor.
  - destruct (f x) as [y| | |] eqn:Hy; try discriminate.
    destruct (comprehension f l) as [ys'| | |]; try discriminate.
    intros [= <-]. constructor; [exact Hy|]. apply IH. reflexivity.
Qed.

Lemma value_binding_inv (value : element) (b : binding) :
  value_binding value = Ok b ->
  one_comma value = true
  /\ PyStr.lacks "," (fst b) = true /\ PyStr.lacks "," (snd b) = true.
Proof.
  unfold value_binding, one_comma, role_tuple. destruct (text_of value) as [t|]; [|discriminate].
  pose proof (length_split "," t) as Hlen. pose proof (split_pieces_lack "," t) as Hlack.
  destruct (PyStr.split "," t) as [|p [|r [|x l]]]; try discriminate.
  intros [= <-]. cbn [length] in Hlen. injection Hlen as Hlen. rewrite <- Hlen.
  apply Forall_cons in Hlack as [Hp Hlack]. apply Forall_cons in Hlack as [Hr _].
  repeat split; assumption.
Qed.

(** X8: the extraction succeeds only on assertions whose role values each
    hold exactly one comma, and then no principal and no role it
    returns holds a comma. *)
Theorem extract_roles_needs_one_comma (root : element) (bindings : list binding) :
  extract_roles_of root = Ok bindings ->
  Forall (fun value => one_comma value = true) (role_values root)
  /\ Forall (fun b => PyStr.lacks "," (fst b) = true /\ PyStr.lacks "," (snd b) = true)
       bindings.
Proof.
  unfold extract_roles_of, role_values.
  destruct (comprehension _ (role_attributes root)) as [sublists| | |] eqn:Hc; try discriminate.
  intros [= <-]. apply comprehension_inv in Hc.
  induction Hc as [|attr bs attrs sublists Hattr _ IH]; [split; constructor|].
  destruct IH as [IH1 IH2]. apply comprehension_inv in Hattr.
  cbn [map concat]. split; apply Forall_app; (split; [|assumption]).
  - induction Hattr as [|v b vs bs' Hv _ IHv]; constructor; [|exact IHv].
    apply (value_binding_inv v b Hv).
  - induction Hattr as [|v b vs bs' Hv _ IHv]; constructor; [|exact IHv].
    apply (value_binding_inv v b Hv).
Qed.

Lemma extract_roles_needs_one_comma_witness :
  Forall (fun value => one_comma value = true)
    (role_values (Scenario.response [Scenario.P1 +:+ "," +:+ Scenario.R1]))
  /\ Forall (fun b => PyStr.lacks "," (fst b) = true /\ PyStr.lacks "," (snd b) = true)
       [(Scenario.P1, Scenario.R1)].
Proof.
  apply (extract_roles_needs_one_comma (Scenario.response [Scenario.P1 +:+ "," +:+ Scenario.R1])).
  reflexivity.
Defined.

(** An assertion without a role attribute grants nothing: the
    extraction returns the empty list. *)
Lemma extract_roles_no_attribute (root : element) :
  role_attributes root = [] -> extract_roles_of root = Ok [].
Proof. unfold extract_roles_of. intros ->. reflexivity. Qed.

(** ** The negotiation *)

(** X9: in batch mode a negotiation that lacks the URL, the domain, the
    user name or the password dies with a message on stderr before
    anything is asked of the terminal or of the provider. *)
Theorem ntlm_authenticate_batch_incomplete (E : Env) (url domain username : string)
  (password : option string) (w : world) :
  url = "" \/ domain = "" \/ username = "" \/ PyStr.truthy password = false ->
  exists msg,
    ntlm_authenticate E url domain username password true w
    = (Died msg, snd (warn E msg w)).
Proof.
  intros H. unfold ntlm_authenticate.
  destruct url as [|cu url]; [eexists; reflexivity|].
  destruct domain as [|cd domain]; [eexists; reflexivity|].
  destruct username as [|cn username]; [eexists; reflexivity|].
  destruct password as [[|cp password]|]; [eexists; reflexivity| |eexists; reflexivity].
  destruct H as [H|[H|[H|H]]]; discriminate.
Qed.

Lemma ntlm_authenticate_batch_incomplete_witness :
  exists msg,
    ntlm_authenticate Scenario.env1 "https://adfs.example/ls" "CORP" "user" None true world0
    = (Died msg, snd (warn Scenario.env1 msg world0)).
Proof.
  apply (ntlm_authenticate_batch_incomplete Scenario.env1 "https://adfs.example/ls" "CORP"
           "user" None world0).
  right. right. right. reflexivity.
Defined.

Lemma ntlm_authenticate_complete (E : Env) (url domain username : string)
  (password : option string) (batch : bool) (w : world) :
  url <> "" -> domain <> "" -> username <> "" -> PyStr.truthy password = true ->
  let r := ntlm_authenticate E url domain username password batch w in
  events is_http (snd r) = EvHttpGet url (domain +:+ "\" +:+ username) :: events is_http w
  /\ events is_prompt (snd r) = events is_prompt w.
Proof.
  intros Hu Hd Hn Hp. cbv zeta. unfold ntlm_authenticate.
  destruct url as [|cu url]; [congruence|]. destruct domain as [|cd domain]; [congruence|].
  destruct username as [|cn username]; [congruence|].
  destruct password as [[|cp password]|]; try discriminate.
  cbn [PyStr.truthy negb]. rewrite !bind_ret.
  unfold bind, emit. cbn [fst snd].
  destruct (last_value _) as [[|c r]|]; split; reflexivity.
Qed.

(** X10: a negotiation that succeeds returns what a worker needs to repeat
    it unattended: the URL and domain it was given, a user name and a
    password that are not empty, and an assertion that is not empty.
    Repeated in batch mode with the credentials returned, it goes
    straight to the provider with one request and asks nothing of the
    terminal. *)
Theorem ntlm_authenticate_success (E : Env) (url domain username : string)
  (password : option string) (batch : bool) (w w' : world)
  (u d n : string) (p : option string) (saml_response : string) :
  ntlm_authenticate E url domain username password batch w
  = (Ok ((u, d, n, p), saml_response), w') ->
  u = url /\ d = domain /\ url <> "" /\ domain <> "" /\ n <> ""
  /\ PyStr.truthy p = true /\ saml_response <> ""
  /\ (batch = true -> n = username /\ p = password)
  /\ forall w2,
       let r := ntlm_authenticate E u d n p true w2 in
       events is_http (snd r) = EvHttpGet u (d +:+ "\" +:+ n) :: events is_http w2
       /\ events is_prompt (snd r) = events is_prompt w2.
Proof.
  intros H.
  assert (Hinv : u = url /\ d = domain /\ url <> "" /\ domain <> "" /\ n <> ""
                 /\ PyStr.truthy p = true /\ saml_response <> ""
                 /\ (batch = true -> n = username /\ p = password)).
  { unfold ntlm_authenticate in H.
    destruct url as [|cu url]; [discriminate|]. destruct domain as [|cd domain]; [discriminate|].
    cbn [PyStr.truthy negb] in H.
    unfold bind at 1 in H.
    match type of H with
    | (let (_, _) := ?m w in _) = _ => destruct (m w) as [[n0| | |] w1] eqn:Hn; try discriminate
    end.
    assert (Hn0 : n0 <> "" /\ (batch = true -> n0 = username)).
    { destruct username as [|cn username]; cbn [PyStr.truthy] in Hn.
      - unfold bind in Hn. destruct batch.
        + cbn in Hn. discriminate.
        + cbn [emit ret] in Hn.
          destruct (prompt_input E "Username:") as [|ct typed]; cbn in Hn; [discriminate|].
          injection Hn as <- _. split; [discriminate|discriminate].
      - injection Hn as <- _. split; [discriminate|reflexivity]. }
    unfold bind at 1 in H.
    match type of H with
    | (let (_, _) := ?m w1 in _) = _ => destruct (m w1) as [[p0| | |] w2] eqn:Hp; try discriminate
    end.
    assert (Hp0 : PyStr.truthy p0 = true /\ (batch = true -> p0 = password)).
    { destruct (PyStr.truthy password) eqn:Htp.
      - injection Hp as <- _. split; [exact Htp|reflexivity].
      - unfold bind in Hp. destruct batch.
        + cbn [ret] in Hp. rewrite Htp in Hp. discriminate.
        + cbn [emit ret] in Hp.
          destruct (PyStr.truthy (Some (prompt_getpass E _))) eqn:Hg; [|discriminate].
          injection Hp as <- _. split; [exact Hg|discriminate]. }
    unfold bind at 1 in H. cbn [emit] in H.
    destruct (last_value _) as [[|c r]|]; try discriminate.
    injection H as <- <- <- <- <- _.
    destruct Hn0 as [Hn1 Hn2]. destruct Hp0 as [Hp1 Hp2].
    repeat split; try discriminate; auto. }
  destruct Hinv as (-> & -> & Hu & Hd & Hn & Hp & Hs & Hb).
  repeat split; try assumption; try apply Hb; try assumption;
    apply (ntlm_authenticate_complete E url domain n p true w2 Hu Hd Hn Hp).
Qed.

Lemma ntlm_authenticate_success_witness :
  "https://adfs.example/ls" = "https://adfs.example/ls" /\ "CORP" = "CORP"
  /\ "https://adfs.example/ls" <> "" /\ "CORP" <> "" /\ "user" <> ""
  /\ PyStr.truthy (Some "pw") = true /\ "PHNhbWw+" <> ""
  /\ (true = true -> "user" = "user" /\ Some "pw" = Some "pw")
  /\ forall w2,
       let r := ntlm_authenticate Scenario.env1 "https://adfs.example/ls" "CORP" "user"
                  (Some "pw") true w2 in
       events is_http (snd r)
       = EvHttpGet "https://adfs.example/ls" ("CORP" +:+ "\" +:+ "user") :: events is_http w2
       /\ events is_prompt (snd r) = events is_prompt w2.
Proof.
  apply (ntlm_authenticate_success Scenario.env1 "https://adfs.example/ls" "CORP" "user"
           (Some "pw") true world0
           (snd (ntlm_authenticate Scenario.env1 "https://adfs.example/ls" "CORP" "user"
                   (Some "pw") true world0))).
  reflexivity.
Defined.

(** ** The profile commands *)

Lemma name_le_total : Total name_le.
Proof. intros a b. apply String.leb_total. Qed.

(** What [load_profiles] returns when the pattern compiles: the file
    is read anew, since [load_credentials.filename] is never set. *)
Lemma load_profiles_run (E : Env) (filename pattern : string) (r : regex E) (w : world) :
  lc_filename w = None -> re_compile E pattern = Some r ->
  load_profiles E filename pattern w
  = (Ok ((fun s => (fst s, items (read w filename) (snd s)))
           <$> filter (fun s => re_search E r (fst s) = true)
                 (map_to_list (sections (read w filename)))),
     snd (set_lc_config (Some (read w filename)) w)).
Proof.
  intros Hlc Hc. unfold load_profiles, load_credentials, compile, get_world, bind.
  rewrite Hlc, Hc. cbn [orb]. rewrite orb_true_r. reflexivity.
Qed.

Lemma loaded_names (c : config) (P : string * gmap string string -> Prop)
  `{forall s, Decision (P s)} (l : list (string * gmap string string)) :
  fst <$> ((fun s => (fst s, items c (snd s))) <$> filter P l) = fst <$> filter P l.
Proof. rewrite <- list_fmap_compose. reflexivity. Qed.

Lemma matching_names (E : Env) (r : regex E) (c : config) :
  let names := fst <$> filter (fun s => re_search E r (fst s) = true)
                         (map_to_list (sections c)) in
  NoDup names /\ forall n, n ∈ names <-> matching E r c n.
Proof.
  cbv zeta. split.
  - eapply sublist_NoDup; [apply (NoDup_fst_map_to_list (sections c))|].
    apply fmap_sublist, sublist_filter.
  - intros n. rewrite list_elem_of_fmap. unfold matching. split.
    + intros ([n' d] & -> & Hin). apply list_elem_of_filter in Hin as [Hs Hin].
      apply elem_of_map_to_list in Hin. split; [exists d; exact Hin|exact Hs].
    + intros [[d Hd] Hs]. exists (n, d). split; [reflexivity|].
      apply list_elem_of_filter. split; [exact Hs|]. apply elem_of_map_to_list, Hd.
Qed.

Lemma sorted_names (E : Env) (r : regex E) (c : config) :
  let names :=
    fst <$> sorted ((fun s => (fst s, items c (snd s)))
                      <$> filter (fun s => re_search E r (fst s) = true)
                            (map_to_list (sections c))) in
  NoDup names /\ (forall n, n ∈ names <-> matching E r c n) /\ Sorted string_le names.
Proof.
  cbv zeta. destruct (matching_names E r c) as [Hnd Hin]. cbv zeta in *.
  assert (Hperm : fst <$> sorted ((fun s => (fst s, items c (snd s)))
                                    <$> filter (fun s => re_search E r (fst s) = true)
                                          (map_to_list (sections c)))
                  ≡ₚ fst <$> filter (fun s => re_search E r (fst s) = true)
                               (map_to_list (sections c))).
  { rewrite <- (loaded_names c). apply fmap_Permutation. unfold sorted.
    apply merge_sort_Permutation. }
  split; [rewrite Hperm; exact Hnd|]. split.
  - intros n. rewrite Hperm. apply Hin.
  - apply (Sorted_fmap fst name_le string_le); [intros x y Hxy; exact Hxy|].
    unfold sorted. apply (@Sorted_merge_sort _ name_le name_le_dec name_le_total).
Qed.

Lemma print_each (E : Env) (l : list profile) (w : world) :
  exists w',
    for_each (fun p => print E (fst p) newline) l w = (Ok tt, w')
    /\ trace w' = rev (map (fun n => EvStdout (n +:+ newline)) (fst <$> l)) ++ trace w
    /\ files w' = files w.
Proof.
  revert w. induction l as [|p l IH]; intros w.
  - exists w. repeat split.
  - cbn [for_each]. unfold bind, print at 1, emit.
    match goal with
    | |- context [for_each _ l ?w1] => destruct (IH w1) as (w' & Hrun & Htr & Hf)
    end.
    exists w'. split; [exact Hrun|]. rewrite Htr, Hf. cbn [trace files fmap list_fmap map rev].
    rewrite <- app_assoc. split; reflexivity.
Qed.

(** X19: [list_profiles] prints, one to a line and in ascending order, the
    names of the sections of the file that the pattern finds, each
    once, and changes no file. *)
Theorem list_profiles_sorted (E : Env) (pattern filename : string) (r : regex E) (w : world) :
  lc_filename w = None -> re_compile E pattern = Some r ->
  exists names w',
    list_profiles E pattern filename w = (Ok tt, w')
    /\ trace w' = rev (map (fun n => EvStdout (n +:+ newline)) names) ++ trace w
    /\ files w' = files w
    /\ Sorted string_le names
    /\ NoDup names
    /\ forall n, n ∈ names <-> matching E r (read w filename) n.
Proof.
  intros Hlc Hc. unfold list_profiles, bind. rewrite (load_profiles_run E _ _ r w Hlc Hc).
  destruct (sorted_names E r (read w filename)) as (Hnd & Hin & Hsorted). cbv zeta in *.
  match goal with
  | |- context [for_each _ ?l ?w1] => destruct (print_each E l w1) as (w' & Hrun & Htr & Hf)
  end.
  eexists _, w'. split; [exact Hrun|]. split; [exact Htr|]. split; [exact Hf|].
  split; [exact Hsorted|]. split; [exact Hnd|exact Hin].
Qed.

Lemma list_profiles_sorted_witness :
  exists names w',
    list_profiles Scenario.env1 "e" "/tmp/creds" Scenario.world12 = (Ok tt, w')
    /\ trace w' = rev (map (fun n => EvStdout (n +:+ newline)) names) ++ trace Scenario.world12
    /\ files w' = files Scenario.world12
    /\ Sorted string_le names
    /\ NoDup names
    /\ forall n, n ∈ names
                 <-> matching Scenario.env1 "e" (read Scenario.world12 "/tmp/creds") n.
Proof.
  apply (list_profiles_sorted Scenario.env1 "e" "/tmp/creds" "e" Scenario.world12); reflexivity.
Defined.

Example list_profiles_dev_test :
  rev (trace (snd (list_profiles Scenario.env1 "e" "/tmp/creds" Scenario.world12)))
  = [EvStdout ("dev" +:+ newline); EvStdout ("test" +:+ newline)].
Proof. vm_compute. reflexivity. Qed.

(** X20: [select_profile] prints a name exactly when one section of the
    file, and no other, is found by the pattern; when none is found, or
    more than one, it dies with nothing printed. *)
Theorem select_profile_unique (E : Env) (pattern filename : string) (r : regex E)
  (w : world) :
  lc_filename w = None -> re_compile E pattern = Some r ->
  let c := read w filename in
  let w1 := snd (set_lc_config (Some c) w) in
  (forall n, matching E r c n -> (forall n', matching E r c n' -> n' = n) ->
             select_profile E pattern filename w = print E n newline w1)
  /\ ((forall n, ~ matching E r c n) ->
      select_profile E pattern filename w = die E "No matching profiles found." w1)
  /\ (forall n1 n2, matching E r c n1 -> matching E r c n2 -> n1 <> n2 ->
                    exists msg, select_profile E pattern filename w = die E msg w1).
Proof.
  intros Hlc Hc. cbv zeta.
  destruct (sorted_names E r (read w filename)) as (Hnd & Hin & _). cbv zeta in *.
  unfold select_profile, bind. rewrite (load_profiles_run E _ _ r w Hlc Hc).
  destruct (fst <$> sorted _) as [|a [|b l]].
  - split; [|split].
    + intros n Hn _. apply Hin in Hn. inversion Hn.
    + reflexivity.
    + intros n1 n2 Hn1 _ _. apply Hin in Hn1. inversion Hn1.
  - split; [|split].
    + intros n Hn Huniq. f_equal. apply Huniq, Hin. left.
    + intros Hnone. exfalso. apply (Hnone a), Hin. left.
    + intros n1 n2 Hn1 Hn2 Hne. apply Hin in Hn1, Hn2.
      apply list_elem_of_singleton in Hn1, Hn2. congruence.
  - split; [|split].
    + intros n Hn Huniq. exfalso.
      assert (Ha : a = n) by (apply Huniq, Hin; left).
      assert (Hb : b = n) by (apply Huniq, Hin; right; left).
      subst. apply NoDup_cons in Hnd as [Hnd _]. apply Hnd. left.
    + intros Hnone. exfalso. apply (Hnone a), Hin. left.
    + intros n1 n2 _ _ _. eexists. reflexivity.
Qed.

Lemma select_profile_unique_witness :
  (forall n, matching Scenario.env1 "dev" (read Scenario.world12 "/tmp/creds") n ->
             (forall n', matching Scenario.env1 "dev" (read Scenario.world12 "/tmp/creds") n' ->
                         n' = n) ->
             select_profile Scenario.env1 "dev" "/tmp/creds" Scenario.world12
             = print Scenario.env1 n newline
                 (snd (set_lc_config (Some (read Scenario.world12 "/tmp/creds"))
                         Scenario.world12)))
  /\ ((forall n, ~ matching Scenario.env1 "dev" (read Scenario.world12 "/tmp/creds") n) ->
      select_profile Scenario.env1 "dev" "/tmp/creds" Scenario.world12
      = die Scenario.env1 "No matching profiles found."
          (snd (set_lc_config (Some (read Scenario.world12 "/tmp/creds")) Scenario.world12)))
  /\ (forall n1 n2,
         matching Scenario.env1 "dev" (read Scenario.world12 "/tmp/creds") n1 ->
         matching Scenario.env1 "dev" (read Scenario.world12 "/tmp/creds") n2 -> n1 <> n2 ->
         exists msg,
           select_profile Scenario.env1 "dev" "/tmp/creds" Scenario.world12
           = die Scenario.env1 msg
               (snd (set_lc_config (Some (read Scenario.world12 "/tmp/creds"))
                       Scenario.world12))).
Proof.
  apply (select_profile_unique Scenario.env1 "dev" "/tmp/creds" "dev" Scenario.world12);
    reflexivity.
Defined.

Example select_profile_examples :
  fst (select_profile Scenario.env1 "dev" "/tmp/creds" Scenario.world12) = Ok tt
  /\ fst (select_profile Scenario.env1 "e" "/tmp/creds" Scenario.world12)
     = Died ("Pattern is not unique. It matches these profiles: " +:+ newline +:+ tab
             +:+ "dev" +:+ newline +:+ tab +:+ "test" +:+ newline)
  /\ fst (select_profile Scenario.env1 "prod" "/tmp/creds" Scenario.world12)
     = Died "No matching profiles found."
  /\ fst (select_profile Scenario.env1 "dev" "/tmp/none" Scenario.world12)
     = Died "No matching profiles found.".
Proof. vm_compute. repeat split. Qed.

